(** * FAQ matching and response routing of the chat assistant

    A shallow embedding of the edge function [chat-assistant] (the file with
    [findBestMatch], [calculateSimilarity], [calculateKeywordMatch],
    [areSimilarWords], [calculateSemanticSimilarity], [findRelatedItems],
    [detectIntent], [callGeminiAPI], [generateSuggestedQuestions] and the
    request handler passed to [serve]), and of the badge the chat page draws
    for a reply (the component [ConfidenceIndicator]).

    Conventions of the model.
    - A JavaScript string is a [string] of 8-bit characters; [toLowerCase]
      acts on the ASCII letters and the class [\s] is the ASCII white space.
    - A JavaScript number that holds a score is a [Num]: an exact rational,
      [+Infinity] or [NaN].  Rounding of doubles is not modelled; division by
      zero is.
    - The tables of the database are lists of rows in a [Store], threaded
      through the handler.
    - What the handler calls and the repository does not contain is a
      parameter: the regular expression engine (which may reject a pattern),
      the generative language endpoint, the outcome of the insert into
      [messages] and the clock of the database. *)

From Stdlib Require Import List String Ascii Bool Arith ZArith QArith Qminmax Lia Lqa.
From Stdlib Require Import DecimalString.
Import ListNotations.

Open Scope string_scope.
Open Scope list_scope.

(* ================================================================== *)
(** * JavaScript strings and arrays *)

Module Js.

(** [c] is matched by the class [\s] (ASCII part). *)
Definition is_space (c : ascii) : bool :=
  let n := nat_of_ascii c in
  ((9 <=? n) && (n <=? 13) || (n =? 32))%nat.

Definition lower_ascii (c : ascii) : ascii :=
  let n := nat_of_ascii c in
  if ((65 <=? n) && (n <=? 90))%nat then ascii_of_nat (n + 32) else c.

(** [s.toLowerCase()] *)
Fixpoint toLowerCase (s : string) : string :=
  match s with
  | EmptyString => EmptyString
  | String c r => String (lower_ascii c) (toLowerCase r)
  end.

(** Put [c] in front of the token being read. *)
Definition push_front (c : ascii) (toks : list string) : list string :=
  match toks with
  | [] => [String c EmptyString]
  | t :: ts => String c t :: ts
  end.

(** [s.split(sep)] for a separator [sep] of one character: every occurrence
    of the separator ends a token. *)
Fixpoint split_char (sep : ascii) (s : string) : list string :=
  match s with
  | EmptyString => [EmptyString]
  | String c r =>
      if Ascii.eqb c sep then EmptyString :: split_char sep r
      else push_front c (split_char sep r)
  end.

(** [s.split(/\s+/)]: a maximal run of white space ends a token once.
    [in_run] tells that the character before was white space. *)
Fixpoint split_ws_from (in_run : bool) (s : string) : list string :=
  match s with
  | EmptyString => [EmptyString]
  | String c r =>
      if is_space c then
        if in_run then split_ws_from true r
        else EmptyString :: split_ws_from true r
      else push_front c (split_ws_from false r)
  end.

Definition split_ws (s : string) : list string := split_ws_from false s.

(** [s.startsWith(p)] *)
Definition startsWith (s p : string) : bool := String.prefix p s.

(** [s.includes(sub)] on strings: [sub] occurs in [s]. *)
Fixpoint includes (s sub : string) : bool :=
  String.prefix sub s ||
  match s with
  | EmptyString => false
  | String _ r => includes r sub
  end.

(** [arr.includes(x)] on arrays of strings. *)
Definition arr_includes (arr : list string) (x : string) : bool :=
  existsb (String.eqb x) arr.

(** [arr.join(sep)] *)
Fixpoint join (sep : string) (arr : list string) : string :=
  match arr with
  | [] => EmptyString
  | [x] => x
  | x :: rest => (x ++ sep ++ join sep rest)%string
  end.

(** ** Numbers *)

Inductive Num : Type :=
| Fin (q : Q)
| PInf
| NaN.

(** [a / n] for a count [n] and a numerator [a] that is not negative. *)
Definition div_count (a : Q) (n : nat) : Num :=
  match n with
  | O => if Qeq_bool a 0 then NaN else PInf
  | S _ => Fin (a / inject_Z (Z.of_nat n))
  end.

(** [x * w] for a positive literal [w]. *)
Definition scale (x : Num) (w : Q) : Num :=
  match x with
  | Fin q => Fin (q * w)
  | PInf => PInf
  | NaN => NaN
  end.

(** [Math.min(x, y)] *)
Definition min (x y : Num) : Num :=
  match x, y with
  | NaN, _ | _, NaN => NaN
  | PInf, v | v, PInf => v
  | Fin a, Fin b => Fin (Qmin a b)
  end.

(** [Math.max(x, y)] *)
Definition max (x y : Num) : Num :=
  match x, y with
  | NaN, _ | _, NaN => NaN
  | PInf, _ | _, PInf => PInf
  | Fin a, Fin b => Fin (Qmax a b)
  end.

(** [Math.max(x, y, z)] *)
Definition max3 (x y z : Num) : Num := max (max x y) z.

(** [x > y] *)
Definition gt (x y : Num) : bool :=
  match x, y with
  | NaN, _ | _, NaN => false
  | PInf, PInf => false
  | PInf, Fin _ => true
  | Fin _, PInf => false
  | Fin a, Fin b => match Qcompare a b with Gt => true | _ => false end
  end.

(** [x || d] on a number that may be [undefined] or [null]. *)
Definition or_default (x : option Z) (d : Z) : Z :=
  match x with
  | Some v => if Z.eqb v 0 then d else v
  | None => d
  end.

End Js.

Import Js.

(* ================================================================== *)
(** * Data model *)

(** A row of [qa_items] as the handler sees it after the query.  The
    JavaScript object has the columns the query selected; [view_count] is
    read by [findBestMatch] and is [None] when the object has no such
    property. *)
Record QAItem : Type := mkQAItem {
  id : string;
  question : string;
  answer : string;
  keywords : option (list string);
  category_id : option string;
  view_count : option Z
}.

Record IntentPattern : Type := mkIntentPattern {
  pattern : string;
  intent : string;
  confidence_threshold : Q
}.

(** The object [{ item: {...item, view_count}, confidence }]. *)
Record MatchResult : Type := mkMatchResult {
  item : QAItem;
  confidence : Num
}.

(* ================================================================== *)
(** * The Matcher *)

Definition stopWords : list string :=
  ["what"; "is"; "the"; "are"; "your"; "my"; "do"; "does"; "can"; "have";
   "how"; "where"; "when"; "why"; "i"; "you"; "a"; "an"; "and"; "or"; "but";
   "of"; "to"; "for"; "with"; "on"; "at"; "by"; "from"; "up"; "about";
   "into"; "through"; "during"; "before"; "after"; "above"; "below";
   "between"; "among"; "within"; "without"; "along"; "following"; "across";
   "behind"; "beyond"; "plus"; "except"; "but"; "than"; "that"; "this";
   "these"; "those"].

(** [word.length > 2 && !stopWords.includes(word)] *)
Definition content_word (word : string) : bool :=
  (2 <? String.length word)%nat && negb (arr_includes stopWords word).

(** The words of [calculateSimilarity]. *)
Definition content_words (s : string) : list string :=
  filter content_word (split_ws (toLowerCase s)).

(** [word1 !== word2 && (word1.includes(word2) || word2.includes(word1))] *)
Definition partial_pair (word1 word2 : string) : bool :=
  negb (String.eqb word1 word2) && (includes word1 word2 || includes word2 word1).

(** The loop over [words1] that adds 0.5 for a word with a partial match. *)
Fixpoint partialMatches (words1 words2 : list string) : Q :=
  match words1 with
  | [] => 0
  | word1 :: rest =>
      (if existsb (partial_pair word1) words2 then 1 # 2 else 0)
      + partialMatches rest words2
  end.

Definition exactMatches (words1 words2 : list string) : nat :=
  List.length (filter (arr_includes words2) words1).

Definition totalMatches (words1 words2 : list string) : Q :=
  inject_Z (Z.of_nat (exactMatches words1 words2)) + partialMatches words1 words2.

Definition calculateSimilarity (str1 str2 : string) : Num :=
  let words1 := content_words str1 in
  let words2 := content_words str2 in
  if ((List.length words1 =? 0) || (List.length words2 =? 0))%nat then Fin 0
  else div_count (totalMatches words1 words2)
                 (Nat.max (List.length words1) (List.length words2)).

Definition synonyms : list (string * list string) :=
  [("speed", ["velocity"; "pace"; "fast"; "quick"; "mph"; "rate"]);
   ("range", ["distance"; "miles"; "travel"; "reach"; "mileage"]);
   ("battery", ["charge"; "power"; "energy"; "charging"]);
   ("waterproof", ["water"; "rain"; "wet"; "weather"; "resistant"]);
   ("warranty", ["guarantee"; "coverage"; "protection"; "policy"]);
   ("legal", ["law"; "regulations"; "rules"; "permitted"; "street"; "road"]);
   ("service", ["repair"; "maintenance"; "fix"; "support"]);
   ("track", ["follow"; "monitor"; "status"; "order"]);
   ("payment", ["pay"; "cost"; "price"; "billing"; "methods"]);
   ("return", ["refund"; "exchange"; "send back"; "policy"]);
   ("models", ["types"; "versions"; "variants"; "options"; "scooters"; "products"]);
   ("differences", ["compare"; "comparison"; "different"; "features"; "specs"]);
   ("features", ["specs"; "specifications"; "capabilities"; "options"]);
   ("delivery", ["shipping"; "shipping"; "transport"; "sent"]);
   ("accessories", ["parts"; "add-ons"; "extras"; "components"])].

Definition areSimilarWords (word1 word2 : string) : bool :=
  existsb (fun entry : string * list string =>
             let (key, values) := entry in
             (String.eqb word1 key && arr_includes values word2)
             || (String.eqb word2 key && arr_includes values word1)
             || (arr_includes values word1 && arr_includes values word2))
          synonyms.

(** The predicate of [queryWords.some] for one keyword. *)
Definition keyword_hit (keyword word : string) : bool :=
  includes word (toLowerCase keyword)
  || includes (toLowerCase keyword) word
  || areSimilarWords word (toLowerCase keyword).

Definition calculateKeywordMatch (query : string) (keywords : list string) : Num :=
  if (List.length keywords =? 0)%nat then Fin 0
  else
    let queryWords := split_ws (toLowerCase query) in
    let matches := filter (fun keyword => existsb (keyword_hit keyword) queryWords) keywords in
    div_count (inject_Z (Z.of_nat (List.length matches))) (List.length keywords).

(** [word.length > 2], the filter of [calculateSemanticSimilarity]. *)
Definition long_word (word : string) : bool := (2 <? String.length word)%nat.

(** The inner loop of [calculateSemanticSimilarity] for one query word: the
    first question word that passes one of the three tests decides the
    amount added, and the loop breaks. *)
Fixpoint wordMatch (queryWord : string) (questionWords : list string) : Q :=
  match questionWords with
  | [] => 0
  | questionWord :: rest =>
      if String.eqb queryWord questionWord then 1
      else if areSimilarWords queryWord questionWord then 8 # 10
      else if ((3 <? String.length queryWord)%nat && (3 <? String.length questionWord)%nat)
              && (includes queryWord questionWord || includes questionWord queryWord)
           then 6 # 10
      else wordMatch queryWord rest
  end.

Fixpoint wordMatches (queryWords questionWords : list string) : Q :=
  match queryWords with
  | [] => 0
  | queryWord :: rest => wordMatch queryWord questionWords + wordMatches rest questionWords
  end.

(** The three boosts for specific patterns. *)
Definition patternBoost (query question : string) : Q :=
  (if includes query "model" && includes question "model" then 5 # 10 else 0)
  + (if includes query "difference" && includes question "difference" then 5 # 10 else 0)
  + (if includes query "types" && (includes question "model" || includes question "difference")
     then 3 # 10 else 0).

Definition calculateSemanticSimilarity (query question : string) : Num :=
  let queryWords := filter long_word (split_ws (toLowerCase query)) in
  let questionWords := filter long_word (split_ws (toLowerCase question)) in
  let semanticMatches := wordMatches queryWords questionWords + patternBoost query question in
  let totalQueryWords := List.length queryWords in
  min (div_count semanticMatches totalQueryWords) (Fin 1).

(** [item.keywords || []] *)
Definition keywords_or_empty (it : QAItem) : list string :=
  match keywords it with
  | Some ks => ks
  | None => []
  end.

Definition questionScore (query : string) (it : QAItem) : Num :=
  calculateSimilarity (toLowerCase query) (toLowerCase (question it)).

Definition keywordScore (query : string) (it : QAItem) : Num :=
  calculateKeywordMatch (toLowerCase query) (keywords_or_empty it).

Definition semanticScore (query : string) (it : QAItem) : Num :=
  calculateSemanticSimilarity (toLowerCase query) (toLowerCase (question it)).

Definition finalScore (query : string) (it : QAItem) : Num :=
  max3 (scale (questionScore query it) (6 # 10))
       (scale (keywordScore query it) (8 # 10))
       (scale (semanticScore query it) 1).

(** [{ ...item, view_count: item.view_count || 0 }] *)
Definition with_view_count (it : QAItem) : QAItem :=
  mkQAItem (id it) (question it) (answer it) (keywords it) (category_id it)
           (Some (or_default (view_count it) 0)).

(** The loop of [findBestMatch], from the state [(bestMatch, highestScore)]. *)
Fixpoint findBestMatch_loop (query : string) (qaItems : list QAItem)
         (bestMatch : option MatchResult) (highestScore : Num) : option MatchResult :=
  match qaItems with
  | [] => bestMatch
  | it :: rest =>
      let fs := finalScore query it in
      if gt fs highestScore
      then findBestMatch_loop query rest (Some (mkMatchResult (with_view_count it) fs)) fs
      else findBestMatch_loop query rest bestMatch highestScore
  end.

Definition findBestMatch (query : string) (qaItems : list QAItem) : option MatchResult :=
  findBestMatch_loop query qaItems None (Fin 0).

(* ================================================================== *)
(** * Related entries, intent, suggestions *)

Definition findRelatedItems (it : QAItem) (allItems : list QAItem) : list string :=
  map id
      (firstn 3
              (filter (fun otherItem =>
                         negb (String.eqb (id otherItem) (id it))
                         && match category_id otherItem, category_id it with
                            | Some c1, Some c2 => String.eqb c1 c2
                            | None, None => true
                            | _, _ => false
                            end)
                      allItems)).

(** The loop of [generateSuggestedQuestions] over the entries. *)
Fixpoint suggestion_loop (queryWords : list string) (qaItems : list QAItem)
         (suggestions : list string) : list string :=
  match qaItems with
  | [] => suggestions
  | it :: rest =>
      let itemWords := split_char " " (toLowerCase (question it)) in
      let commonWords := filter (arr_includes itemWords) queryWords in
      if ((0 <? List.length commonWords) && (List.length suggestions <? 3))%nat
      then suggestion_loop queryWords rest (suggestions ++ [question it])
      else suggestion_loop queryWords rest suggestions
  end.

Definition generalQuestions : list string :=
  ["How do I track my order?";
   "What is the warranty policy?";
   "How do I contact customer support?"].

(** The loop over [generalQuestions]. *)
Fixpoint padding_loop (general : list string) (suggestions : list string) : list string :=
  match general with
  | [] => suggestions
  | q :: rest =>
      if ((List.length suggestions <? 3)%nat && negb (arr_includes suggestions q))
      then padding_loop rest (suggestions ++ [q])
      else padding_loop rest suggestions
  end.

Definition generateSuggestedQuestions (query : string) (qaItems : list QAItem) : list string :=
  let queryWords := split_char " " (toLowerCase query) in
  let suggestions := suggestion_loop queryWords qaItems [] in
  if (List.length suggestions <? 3)%nat
  then padding_loop generalQuestions suggestions
  else suggestions.

(* ================================================================== *)
(** * The generative fallback *)

(** What [await response.json()] gives.  [JsonData text] is a JSON value
    other than [null]; [text] is the string found at
    [candidates?.[0]?.content?.parts?.[0]?.text], or [None] when the chain
    ends in [undefined] or [null]. *)
Inductive Body : Type :=
| NotJson
| JsonNull
| JsonData (text : option string).

(** What [await fetch(...)] gives: a rejected promise, or a response with a
    status and a body. *)
Inductive FetchResult : Type :=
| NetworkError
| Responded (status : nat) (body : Body).

Record GeminiResponse : Type := mkGeminiResponse {
  g_answer : string;
  g_confidence : Q
}.

Definition nl : string := String (ascii_of_nat 10) EmptyString.

Definition nat_to_string (n : nat) : string :=
  NilEmpty.string_of_uint (Nat.to_uint n).

Definition unable_message : string :=
  "I apologize, but I am unable to process your request at the moment.".

Definition difficulties_message : string :=
  "I apologize, but I am experiencing technical difficulties. Please try again later.".

Definition supportedFileType (type : string) : string :=
  if startsWith type "image/" then "image"
  else if startsWith type "video/" then "video"
  else if includes type "pdf" then "PDF document"
  else if includes type "document" || includes type "text/" then "document"
  else "file".

Definition fileContext (hasFiles : bool) (fileTypes : list string) : string :=
  if hasFiles && (0 <? List.length fileTypes)%nat
  then ("The user has shared " ++ nat_to_string (List.length fileTypes)
        ++ " file(s): " ++ join ", " (map supportedFileType fileTypes)
        ++ ". Acknowledge these files and offer relevant assistance based on the file types.")%string
  else "".

Definition faqContext (qaItems : list QAItem) : string :=
  join (nl ++ nl)%string
       (firstn 10 (map (fun it => ("Q: " ++ question it ++ nl ++ "A: " ++ answer it)%string)
                       qaItems)).

Definition prompt (query : string) (qaItems : list QAItem)
           (hasFiles : bool) (fileTypes : list string) : string :=
  (nl ++ "You are a helpful customer service assistant for a scooter company. Use the following FAQ context to answer the user's question. If the question is not covered in the FAQ, provide a helpful general response."
      ++ nl ++ nl ++ fileContext hasFiles fileTypes
      ++ nl ++ nl ++ "FAQ Context:" ++ nl ++ faqContext qaItems
      ++ nl ++ nl ++ "User Question: " ++ query
      ++ nl ++ nl ++ "Provide a helpful, accurate response. Be concise but informative." ++ nl)%string.

Section Services.

(** [new RegExp(p, 'i').test(q)]; [None] when [p] is not a regular
    expression and the constructor throws a [SyntaxError]. *)
Variable regexp_test_i : string -> string -> option bool.

(** The endpoint [generateContent], from the prompt sent to the outcome of
    [fetch] and [response.json()]. *)
Variable gemini : string -> FetchResult.

(** [None] when the constructor threw on the pattern reached. *)
Fixpoint detectIntent (query : string) (patterns : list IntentPattern) : option string :=
  match patterns with
  | [] => Some "general_inquiry"
  | p :: rest =>
      match regexp_test_i (pattern p) query with
      | None => None
      | Some true => Some (intent p)
      | Some false => detectIntent query rest
      end
  end.

(** The status of the response is not read; a body that is not JSON and the
    body [null] end in the [catch] block. *)
Definition callGeminiAPI (query : string) (qaItems : list QAItem)
           (hasFiles : bool) (fileTypes : list string) : GeminiResponse :=
  match gemini (prompt query qaItems hasFiles fileTypes) with
  | Responded _ (JsonData text) =>
      mkGeminiResponse
        (match text with
         | Some t => if String.eqb t "" then unable_message else t
         | None => unable_message
         end)
        (8 # 10)
  | Responded _ NotJson | Responded _ JsonNull | NetworkError =>
      mkGeminiResponse difficulties_message (1 # 10)
  end.

(* ================================================================== *)
(** * The Router and the request handler *)

Record Request : Type := mkRequest {
  query : string;
  sessionId : string;
  userId : string;
  hasFiles : bool;
  fileTypes : list string
}.

(** The variables the two branches of the handler assign, and the update of
    [qa_items] the first branch sends: the row identifier and the new
    [view_count].  [matchedIntent] is [None] when [detectIntent] threw: the
    variables assigned before it keep their value and control passes to the
    [catch] block of the handler. *)
Record Routed : Type := mkRouted {
  response : string;
  routed_confidence : Num;
  matchedIntent : option string;
  relatedItems : list string;
  responseSource : string;
  viewUpdate : option (string * Z)
}.

(** The literal of [bestMatch.confidence > 0.3]. *)
Definition threshold_used : Q := 3 # 10.

(** The [if (bestMatch && bestMatch.confidence > threshold) ... else ...] of
    the handler. *)
Definition route (threshold : Q) (bestMatch : option MatchResult) (req : Request)
           (qaItems : list QAItem) (intentPatterns : list IntentPattern) : Routed :=
  match bestMatch with
  | Some m =>
      if gt (confidence m) (Fin threshold)
      then mkRouted (answer (item m)) (confidence m) (Some "")
                    (findRelatedItems (item m) qaItems) "qa_database"
                    (Some (id (item m), (or_default (view_count (item m)) 0 + 1)%Z))
      else
        let g := callGeminiAPI (query req) qaItems (hasFiles req) (fileTypes req) in
        mkRouted (g_answer g) (Fin (g_confidence g))
                 (detectIntent (query req) intentPatterns) [] "ai" None
  | None =>
      let g := callGeminiAPI (query req) qaItems (hasFiles req) (fileTypes req) in
      mkRouted (g_answer g) (Fin (g_confidence g))
               (detectIntent (query req) intentPatterns) [] "ai" None
  end.

(** ** The tables *)

(** A row of [qa_items]; the times are instants of the database clock. *)
Record QARow : Type := mkQARow {
  row_id : string;
  row_category_id : option string;
  row_question : string;
  row_answer : string;
  row_keywords : option (list string);
  row_view_count : option Z;
  row_is_active : option bool;
  row_created_at : option Z;
  row_updated_at : option Z;
  row_created_by : option string;
  row_updated_by : option string
}.

Record IntentRow : Type := mkIntentRow {
  row_pattern : IntentPattern;
  row_pattern_is_active : option bool
}.

Record Metadata : Type := mkMetadata {
  md_query : string;
  md_suggested_questions : list string;
  md_confidence_score : Num;
  md_matched_intent : string;
  md_related_qa_items : list string;
  md_response_source : string
}.

(** The columns of a row of [messages] the insert names; the identifier the
    database gives the row is the outcome of the insert. *)
Record Message : Type := mkMessage {
  session_id : string;
  message_type : string;
  content : string;
  metadata : Metadata
}.

(** The three tables the handler names. *)
Record Store : Type := mkStore {
  qa_items : list QARow;
  intent_patterns : list IntentRow;
  messages : list Message
}.

Definition is_true (b : option bool) : bool :=
  match b with
  | Some true => true
  | _ => false
  end.

(** [from('qa_items').select('id, question, answer, keywords, category_id,
    qa_categories(name)').eq('is_active', true)]: the objects have the
    selected columns and no [view_count]. *)
Definition select_qa_items (st : Store) : list QAItem :=
  map (fun r => mkQAItem (row_id r) (row_question r) (row_answer r)
                         (row_keywords r) (row_category_id r) None)
      (filter (fun r => is_true (row_is_active r)) (qa_items st)).

(** [from('intent_patterns').select('*').eq('is_active', true)] *)
Definition select_intent_patterns (st : Store) : list IntentPattern :=
  map row_pattern (filter (fun r => is_true (row_pattern_is_active r)) (intent_patterns st)).

(** [from('qa_items').update({ view_count: v }).eq('id', i)] at the instant
    [now]: the trigger [update_qa_items_updated_at] sets [updated_at] of
    every row the statement updates. *)
Definition update_view_count (now : Z) (i : string) (v : Z) (rows : list QARow)
  : list QARow :=
  map (fun r => if String.eqb (row_id r) i
                then mkQARow (row_id r) (row_category_id r) (row_question r)
                             (row_answer r) (row_keywords r) (Some v) (row_is_active r)
                             (row_created_at r) (Some now) (row_created_by r)
                             (row_updated_by r)
                else r)
      rows.

(** The outcome of [insert(...).select().single()]: the identifier of the
    stored row, or [None] when the insert returns an error and stores
    nothing. *)
Variable insert_message : Message -> option string.

(** The instant of the database clock during the request. *)
Variable now : Z.

(** The body sent back with status 200; [reply_messageId] is
    [messageData?.id]. *)
Record Reply : Type := mkReply {
  reply_response : string;
  reply_confidence : Num;
  reply_suggestedQuestions : list string;
  reply_relatedItems : list string;
  reply_messageId : option string
}.

(** The answer of the handler: status 200 with a reply, or status 500 with
    the message of the error caught. *)
Inductive HttpResponse : Type :=
| Ok200 (reply : Reply)
| Error500.

(** The handler, for a request other than [OPTIONS] whose body was read: the
    store after the request and the answer.  An exception of [detectIntent]
    ends in the [catch] block before anything is written; an error of the
    insert is logged and the reply is sent all the same. *)
Definition serve (st : Store) (req : Request) : Store * HttpResponse :=
  let qaItems := select_qa_items st in
  let intentPatterns := select_intent_patterns st in
  let bestMatch := findBestMatch (query req) qaItems in
  let r := route threshold_used bestMatch req qaItems intentPatterns in
  match matchedIntent r with
  | None => (st, Error500)
  | Some intent_found =>
      let rows :=
        match viewUpdate r with
        | Some (i, v) => update_view_count now i v (qa_items st)
        | None => qa_items st
        end in
      let suggestedQuestions := generateSuggestedQuestions (query req) qaItems in
      let msg := mkMessage (sessionId req) "assistant" (response r)
                           (mkMetadata (query req) suggestedQuestions (routed_confidence r)
                                       intent_found (relatedItems r) (responseSource r)) in
      let messageId := insert_message msg in
      (mkStore rows (intent_patterns st)
               (match messageId with
                | Some _ => messages st ++ [msg]
                | None => messages st
                end),
       Ok200 (mkReply (response r) (routed_confidence r) suggestedQuestions
                      (relatedItems r) messageId))
  end.

(** The view counter of the rows with identifier [i]. *)
Definition view_counts (i : string) (st : Store) : list (option Z) :=
  map row_view_count (filter (fun r => String.eqb (row_id r) i) (qa_items st)).

End Services.

(* ================================================================== *)
(** * Notions used in the statements, and sample data *)

(** The words the semantic signal counts in the query. *)
Definition long_words (query : string) : list string :=
  filter long_word (split_ws (toLowerCase query)).

(** No character of [t] is white space: [t] is at most one token. *)
Fixpoint no_space (t : string) : bool :=
  match t with
  | EmptyString => true
  | String c r => negb (is_space c) && no_space r
  end.

(** Every white space token of the query is a stop word. *)
Definition all_stop_words (query : string) : bool :=
  forallb (arr_includes stopWords) (split_ws (toLowerCase query)).

(** [f] is the greatest of [a], [b] and [c]. *)
Definition is_max3 (f a b c : Q) : Prop :=
  (a <= f)%Q /\ (b <= f)%Q /\ (c <= f)%Q /\ (f == a \/ f == b \/ f == c)%Q.

(** The final score of a candidate, from its three signals: the lexical and
    the keyword signal are rationals; with a semantic signal that is a
    rational the final score is the greatest of the three weighted signals,
    and with the semantic signal [NaN] it is [NaN], as [Math.max] has it. *)
Definition weighted_max (query : string) (it : QAItem) : Prop :=
  exists l k,
    questionScore query it = Fin l /\ keywordScore query it = Fin k
    /\ ((semanticScore query it = NaN /\ finalScore query it = NaN)
        \/ exists s f, semanticScore query it = Fin s /\ finalScore query it = Fin f
                       /\ is_max3 f (l * (6 # 10)) (k * (8 # 10)) (s * 1)).

(** Every pattern of [tried] is a regular expression that does not match
    the query. *)
Definition none_matches (regexp_test_i : string -> string -> option bool)
           (query : string) (tried : list IntentPattern) : Prop :=
  Forall (fun p => regexp_test_i (pattern p) query = Some false) tried.




(** A letter or a digit. *)
Definition is_alnum (c : ascii) : bool :=
  let n := nat_of_ascii c in
  ((48 <=? n) && (n <=? 57) || (65 <=? n) && (n <=? 90) || (97 <=? n) && (n <=? 122))%nat.

Fixpoint all_alnum (p : string) : bool :=
  match p with
  | EmptyString => true
  | String c r => is_alnum c && all_alnum r
  end.

(** The engine on the patterns of the examples: a pattern of letters and
    digits matches when it occurs in the query, whatever the case, and the
    pattern "(" is not a regular expression (its group is not closed).  No
    other pattern is used with it. *)
Definition sample_regexp (p q : string) : option bool :=
  if all_alnum p then Some (includes (toLowerCase q) (toLowerCase p)) else None.

(** The failures the specification lists: a network error, a status other
    than 2xx, a payload that is not JSON or has no candidate text. *)
Definition fallback_failed (o : FetchResult) : bool :=
  match o with
  | NetworkError => true
  | Responded status body =>
      negb ((200 <=? status) && (status <=? 299))%nat
      || match body with
         | JsonData (Some _) => false
         | _ => true
         end
  end.

(** The failures that raise inside [callGeminiAPI]: [fetch] rejects,
    [response.json()] rejects, or a property of [null] is read. *)
Definition call_throws (o : FetchResult) : bool :=
  match o with
  | NetworkError | Responded _ NotJson | Responded _ JsonNull => true
  | Responded _ (JsonData _) => false
  end.

Definition candidate_text (o : FetchResult) : option string :=
  match o with
  | Responded _ (JsonData text) => text
  | _ => None
  end.

(** The source written into the message the handler stored last. *)
Definition last_source (st : Store) : option string :=
  last (map (fun msg => Some (md_response_source (metadata msg))) (messages st)) None.

Definition warranty_entry : QAItem :=
  mkQAItem "e1" "What is the warranty?" "Two years." (Some ["warranty"]) None None.

Definition scooters_entry : QAItem :=
  mkQAItem "e2" "Scooter scooters" "Several models." None None None.

Definition track_entry (i : string) : QAItem :=
  mkQAItem i "How do I track my order?" "Use the tracking page." (Some ["track"]) None None.

Definition order_pattern : IntentPattern := mkIntentPattern "order" "order_status" (7 # 10).

Definition sample_request : Request :=
  mkRequest "What is your return policy?" "s1" "u1" false [].

Definition return_row : QARow :=
  mkQARow "e5" (Some "c1") "What is the return policy?" "Within 30 days."
          (Some ["return"; "refund"]) (Some 5%Z) (Some true)
          (Some 100%Z) (Some 100%Z) None None.

Definition sample_store : Store := mkStore [return_row] [] [].

(* ================================================================== *)
(** * The badge of an assistant message ([ConfidenceIndicator]) *)

(** [x >= y] *)
Definition num_ge (x y : Num) : bool :=
  match x, y with
  | NaN, _ | _, NaN => false
  | PInf, _ => true
  | Fin _, PInf => false
  | Fin a, Fin b => Qle_bool b a
  end.

Inductive Level : Type := high | medium | low.

Definition getConfidenceLevel (confidence : Num) : Level :=
  if num_ge confidence (Fin (8 # 10)) then high
  else if num_ge confidence (Fin (6 # 10)) then medium
  else low.

Definition getVariant (confidence : Num) : string :=
  match getConfidenceLevel confidence with
  | high => "default"
  | medium => "secondary"
  | low => "destructive"
  end.

(** [source] is the optional property of the component. *)
Definition getLabel (confidence : Num) (source : option string) : string :=
  match source with
  | Some "qa_database" => "From FAQ"
  | _ =>
      match getConfidenceLevel confidence with
      | high => "High Confidence"
      | medium => "Medium Confidence"
      | low => "Low Confidence"
      end
  end.

(** The levels in increasing order. *)
Definition level_rank (l : Level) : nat :=
  match l with
  | low => 0
  | medium => 1
  | high => 2
  end.

(* ================================================================== *)
(** * The messages of the chat page *)

(** The fields of a message of the page that its badge reads, with its
    content and session. *)
Record ChatMessage : Type := mkChatMessage {
  chat_content : string;
  chat_type : string;
  chat_session_id : string;
  chat_confidence_score : option Num;
  chat_response_source : option string
}.

(** A number read back from JSON: [NaN] and the infinities are written as
    [null]. *)
Definition from_json_number (x : Num) : option Num :=
  match x with
  | Fin q => Some (Fin q)
  | _ => None
  end.

(** The message the page builds from a row of [messages], when it loads a
    session and when the row arrives over the realtime channel. *)
Definition fromStored (msg : Message) : ChatMessage :=
  mkChatMessage (content msg)
                (if String.eqb (message_type msg) "user" then "user" else "assistant")
                (session_id msg)
                (from_json_number (md_confidence_score (metadata msg)))
                (Some (md_response_source (metadata msg))).

(** [x && ...] on a number that may be absent. *)
Definition truthy (x : option Num) : bool :=
  match x with
  | Some (Fin q) => negb (Qeq_bool q 0)
  | Some PInf => true
  | _ => false
  end.

(** The badge of a message, when the page draws one: its variant and its
    label. *)
Definition badge (m : ChatMessage) : option (string * string) :=
  if String.eqb (chat_type m) "assistant" && truthy (chat_confidence_score m)
  then match chat_confidence_score m with
       | Some c => Some (getVariant c, getLabel c (chat_response_source m))
       | None => None
       end
  else None.

(* ================================================================== *)
(** * Further notions used in the statements *)

(** The comparison of categories in [findRelatedItems] is equality. *)
Definition same_category (o it : QAItem) : Prop := category_id o = category_id it.

(** The entry shares a token with the query, as [generateSuggestedQuestions]
    tests it. *)
Definition shares_token (queryWords : list string) (it : QAItem) : bool :=
  (0 <? List.length
          (filter (arr_includes (split_char " " (toLowerCase (question it)))) queryWords))%nat.

(** The questions of the first three entries that share a token with the
    query. *)
Definition matched_questions (query : string) (qaItems : list QAItem) : list string :=
  firstn 3 (map question
                (filter (shares_token (split_char " " (toLowerCase query))) qaItems)).

(** The query is empty or begins with white space. *)
Definition starts_blank (query : string) : bool :=
  match query with
  | EmptyString => true
  | String c _ => is_space c
  end.

(** The entry with its question and its keywords in lower case. *)
Definition lower_item (it : QAItem) : QAItem :=
  mkQAItem (id it) (toLowerCase (question it)) (answer it)
           (option_map (map toLowerCase) (keywords it)) (category_id it) (view_count it).

(** The columns of a row of [qa_items] other than [view_count] and
    [updated_at]. *)
Definition row_static (r : QARow)
  : string * option string * string * string * option (list string) * option bool
    * option Z * option string * option string :=
  (row_id r, row_category_id r, row_question r, row_answer r, row_keywords r,
   row_is_active r, row_created_at r, row_created_by r, row_updated_by r).

Definition warranty_row : QARow :=
  mkQARow "e6" (Some "c1") "What is the warranty?" "Two years." (Some ["warranty"])
          (Some 7%Z) (Some true) (Some 100%Z) (Some 100%Z) None None.



Definition refund_order_store : Store :=
  mkStore [] [mkIntentRow (mkIntentPattern "refund" "refunds" (5 # 10)) (Some false);
              mkIntentRow order_pattern (Some true)] [].

Definition ok_entry : QAItem :=
  mkQAItem "e7" "Is it ok to ride in the rain?" "Yes, in light rain." (Some ["ok"])
           None None.

(** The message the page builds from the reply of the handler, with no
    source. *)
Definition fromReply (sessionId : string) (reply : Reply) : ChatMessage :=
  mkChatMessage (reply_response reply) "assistant" sessionId
                (from_json_number (reply_confidence reply)) None.


(* ================================================================== *)
(** * Properties of the comparison of numbers *)

Section NumFacts.

Lemma gt_Fin_iff (a b : Q) : gt (Fin a) (Fin b) = true <-> (b < a)%Q.
Proof.
  simpl. rewrite Qgt_alt.
  destruct (Qcompare a b); split; intro H; congruence.
Qed.

Lemma gt_Fin_false_iff (a b : Q) : gt (Fin a) (Fin b) = false <-> (a <= b)%Q.
Proof.
  split; intro H.
  - apply Qnot_lt_le. intro L. apply gt_Fin_iff in L. congruence.
  - destruct (gt (Fin a) (Fin b)) eqn:E; [|reflexivity].
    apply gt_Fin_iff in E. lra.
Qed.

Lemma gt_irrefl (x : Num) : gt x x = false.
Proof.
  destruct x as [a| |]; try reflexivity.
  apply gt_Fin_false_iff. lra.
Qed.

Lemma gt_trans (x y z : Num) : gt x y = true -> gt y z = true -> gt x z = true.
Proof.
  destruct x as [a| |], y as [b| |], z as [c| |]; try discriminate; try reflexivity.
  rewrite !gt_Fin_iff. lra.
Qed.

Lemma gt_asym (x y : Num) : gt x y = true -> gt y x = false.
Proof.
  destruct x as [a| |], y as [b| |]; try discriminate; try reflexivity.
  rewrite gt_Fin_iff, gt_Fin_false_iff. lra.
Qed.

(** What does not exceed a bound does not exceed what exceeds the bound. *)
Lemma gt_false_below (x y z : Num) : gt x y = false -> gt z y = true -> gt x z = false.
Proof.
  destruct x as [a| |], y as [b| |], z as [c| |]; try discriminate; try reflexivity.
  rewrite gt_Fin_iff, !gt_Fin_false_iff. lra.
Qed.

Lemma max_NaN_r (x : Num) : max x NaN = NaN.
Proof. destruct x; reflexivity. Qed.

End NumFacts.

(* ================================================================== *)
(** * The loop of the Matcher *)

Section MatcherLoop.

Variable query : string.

Let fs := finalScore query.
Let hit (it : QAItem) : MatchResult := mkMatchResult (with_view_count it) (fs it).

(** The loop either keeps the candidate it started from, no entry scoring
    above the running maximum, or ends on an entry of the list whose score is
    above the initial maximum and is exceeded by no entry. *)
Lemma findBestMatch_loop_spec (qaItems : list QAItem) :
  forall (bestMatch : option MatchResult) (highestScore : Num),
    (findBestMatch_loop query qaItems bestMatch highestScore = bestMatch
     /\ Forall (fun it => gt (fs it) highestScore = false) qaItems)
    \/ (exists it, In it qaItems
                   /\ findBestMatch_loop query qaItems bestMatch highestScore = Some (hit it)
                   /\ gt (fs it) highestScore = true
                   /\ Forall (fun x => gt (fs x) (fs it) = false) qaItems).
Proof.
  induction qaItems as [|a l IH]; intros bm hs.
  - left. split; [reflexivity | constructor].
  - simpl. fold fs. destruct (gt (fs a) hs) eqn:E.
    + right. destruct (IH (Some (hit a)) (fs a)) as [[R F] | (it & I & R & G & F)].
      * exists a. split; [left; reflexivity|].
        split; [exact R|]. split; [exact E|].
        constructor; [apply gt_irrefl | exact F].
      * exists it. split; [right; exact I|].
        split; [exact R|]. split; [eapply gt_trans; eauto|].
        constructor; [apply gt_asym; exact G | exact F].
    + destruct (IH bm hs) as [[R F] | (it & I & R & G & F)].
      * left. split; [exact R | constructor; assumption].
      * right. exists it. split; [right; exact I|].
        split; [exact R|]. split; [exact G|].
        constructor; [eapply gt_false_below; eauto | exact F].
Qed.

Lemma findBestMatch_spec (qaItems : list QAItem) :
  (findBestMatch query qaItems = None
   /\ Forall (fun it => gt (fs it) (Fin 0) = false) qaItems)
  \/ (exists it, In it qaItems
                 /\ findBestMatch query qaItems = Some (hit it)
                 /\ gt (fs it) (Fin 0) = true
                 /\ Forall (fun x => gt (fs x) (fs it) = false) qaItems).
Proof. apply findBestMatch_loop_spec. Qed.

End MatcherLoop.

(* ================================================================== *)
(** * Ranges of the three signals *)

Section SignalRanges.

Local Abbreviation qn n := (inject_Z (Z.of_nat n)).

Lemma qn_nonneg (n : nat) : (0 <= qn n)%Q.
Proof. change 0%Q with (inject_Z 0). rewrite <- Zle_Qle. lia. Qed.

Lemma qn_S (n : nat) : (qn (S n) == qn n + 1)%Q.
Proof. rewrite Nat2Z.inj_succ, <- Z.add_1_r, inject_Z_plus. reflexivity. Qed.

Lemma qn_le (n m : nat) : (n <= m)%nat -> (qn n <= qn m)%Q.
Proof. intro H. rewrite <- Zle_Qle. lia. Qed.

Lemma qn_pos (n : nat) : (0 < n)%nat -> (0 < qn n)%Q.
Proof. intro H. change 0%Q with (inject_Z 0). rewrite <- Zlt_Qlt. lia. Qed.

Lemma div_count_pos (a : Q) (n : nat) :
  (0 < n)%nat -> div_count a n = Fin (a / qn n).
Proof. destruct n; [lia | reflexivity]. Qed.

Lemma div_bounds (a c : Q) (n : nat) :
  (0 < n)%nat -> (0 <= a)%Q -> (a <= c * qn n)%Q ->
  (0 <= a / qn n)%Q /\ (a / qn n <= c)%Q.
Proof.
  intros Hn Ha Hc. pose proof (qn_pos n Hn) as P. split.
  - apply Qle_shift_div_l; [exact P | lra].
  - apply Qle_shift_div_r; [exact P | exact Hc].
Qed.

Lemma partialMatches_bounds (words1 words2 : list string) :
  (0 <= partialMatches words1 words2)%Q
  /\ (partialMatches words1 words2 <= (1 # 2) * qn (List.length words1))%Q.
Proof.
  induction words1 as [|w l [IH0 IH1]].
  - split; [apply Qle_refl | discriminate].
  - cbn [partialMatches List.length]. rewrite qn_S.
    destruct (existsb (partial_pair w) words2); cbv iota; split; lra.
Qed.

Lemma exactMatches_le (words1 words2 : list string) :
  (exactMatches words1 words2 <= List.length words1)%nat.
Proof. apply filter_length_le. Qed.

Lemma totalMatches_bounds (words1 words2 : list string) :
  (0 <= totalMatches words1 words2)%Q
  /\ (totalMatches words1 words2 <= (3 # 2) * qn (List.length words1))%Q.
Proof.
  unfold totalMatches.
  pose proof (partialMatches_bounds words1 words2) as [P0 P1].
  pose proof (qn_nonneg (exactMatches words1 words2)) as E0.
  pose proof (qn_le _ _ (exactMatches_le words1 words2)) as E1.
  split; lra.
Qed.

(** The lexical signal is a rational between 0 and 3/2. *)
Lemma calculateSimilarity_range (str1 str2 : string) :
  exists l, calculateSimilarity str1 str2 = Fin l /\ (0 <= l)%Q /\ (l <= 3 # 2)%Q.
Proof.
  unfold calculateSimilarity.
  set (w1 := content_words str1). set (w2 := content_words str2).
  destruct ((List.length w1 =? 0) || (List.length w2 =? 0))%nat eqn:E.
  - exists 0%Q. split; [reflexivity | split; lra].
  - apply orb_false_iff in E. destruct E as [E1 E2].
    apply Nat.eqb_neq in E1. apply Nat.eqb_neq in E2.
    assert (M : (0 < Nat.max (List.length w1) (List.length w2))%nat) by lia.
    rewrite (div_count_pos _ _ M).
    eexists. split; [reflexivity|].
    pose proof (totalMatches_bounds w1 w2) as [T0 T1].
    apply div_bounds; [exact M | exact T0 |].
    pose proof (qn_le _ _ (Nat.le_max_l (List.length w1) (List.length w2))) as L.
    pose proof (qn_nonneg (List.length w1)). lra.
Qed.

(** The keyword signal is a rational between 0 and 1. *)
Lemma calculateKeywordMatch_range (query : string) (keywords : list string) :
  exists k, calculateKeywordMatch query keywords = Fin k /\ (0 <= k)%Q /\ (k <= 1)%Q.
Proof.
  unfold calculateKeywordMatch.
  destruct (List.length keywords =? 0)%nat eqn:E.
  - exists 0%Q. split; [reflexivity | split; lra].
  - apply Nat.eqb_neq in E.
    assert (M : (0 < List.length keywords)%nat) by lia.
    rewrite (div_count_pos _ _ M).
    eexists. split; [reflexivity|].
    apply div_bounds; [exact M | apply qn_nonneg |].
    rewrite Qmult_1_l. apply qn_le. apply filter_length_le.
Qed.

Lemma wordMatch_nonneg (queryWord : string) (questionWords : list string) :
  (0 <= wordMatch queryWord questionWords)%Q.
Proof.
  induction questionWords as [|w l IH]; simpl; [lra|].
  repeat match goal with |- context [if ?b then _ else _] => destruct b end;
    try lra; exact IH.
Qed.

Lemma wordMatches_nonneg (queryWords questionWords : list string) :
  (0 <= wordMatches queryWords questionWords)%Q.
Proof.
  induction queryWords as [|w l IH]; simpl; [lra|].
  pose proof (wordMatch_nonneg w questionWords). lra.
Qed.

Lemma patternBoost_nonneg (query question : string) :
  (0 <= patternBoost query question)%Q.
Proof.
  unfold patternBoost.
  repeat match goal with |- context [if ?b then _ else _] => destruct b end; lra.
Qed.

(** With a word of more than two characters in the query the semantic signal
    is a rational between 0 and 1. *)
Lemma calculateSemanticSimilarity_range (query question : string) :
  long_words query <> [] ->
  exists s, calculateSemanticSimilarity query question = Fin s /\ (0 <= s)%Q /\ (s <= 1)%Q.
Proof.
  intro H. unfold calculateSemanticSimilarity. fold (long_words query).
  assert (M : (0 < List.length (long_words query))%nat).
  { destruct (long_words query); [congruence | simpl; lia]. }
  rewrite (div_count_pos _ _ M). simpl.
  eexists. split; [reflexivity|].
  set (x := (_ / _)%Q).
  assert (X : (0 <= x)%Q).
  { unfold x. apply Qle_shift_div_l; [apply qn_pos; exact M|].
    pose proof (wordMatches_nonneg (long_words query)
                  (filter long_word (split_ws (toLowerCase question)))).
    pose proof (patternBoost_nonneg query question). lra. }
  destruct (Q.min_spec x 1) as [[L E] | [L E]]; rewrite E; split; lra.
Qed.

(** Whatever the query, the semantic signal is [NaN] or a rational between 0
    and 1. *)
Lemma calculateSemanticSimilarity_cases (query question : string) :
  calculateSemanticSimilarity query question = NaN
  \/ exists s, calculateSemanticSimilarity query question = Fin s /\ (0 <= s)%Q /\ (s <= 1)%Q.
Proof.
  destruct (long_words query) eqn:E.
  - unfold calculateSemanticSimilarity. fold (long_words query). rewrite E. simpl.
    destruct (Qeq_bool _ 0).
    + left. reflexivity.
    + right. exists 1%Q. split; [reflexivity | split; lra].
  - right. apply calculateSemanticSimilarity_range. congruence.
Qed.

(** The final score is [NaN] or a rational between 0 and 1. *)
Lemma finalScore_cases (query : string) (it : QAItem) :
  finalScore query it = NaN
  \/ exists f, finalScore query it = Fin f /\ (0 <= f)%Q /\ (f <= 1)%Q.
Proof.
  unfold finalScore, questionScore, keywordScore, semanticScore, max3.
  destruct (calculateSimilarity_range (toLowerCase query) (toLowerCase (question it)))
    as (l & -> & L0 & L1).
  destruct (calculateKeywordMatch_range (toLowerCase query) (keywords_or_empty it))
    as (k & -> & K0 & K1).
  destruct (calculateSemanticSimilarity_cases (toLowerCase query) (toLowerCase (question it)))
    as [-> | (s & -> & S0 & S1)].
  - left. reflexivity.
  - right. simpl. eexists. split; [reflexivity|].
    split.
    + pose proof (Q.le_max_r (Qmax (l * (6 # 10)) (k * (8 # 10))) (s * 1)). lra.
    + apply Q.max_lub; [apply Q.max_lub|]; lra.
Qed.

End SignalRanges.

(* ================================================================== *)
(** * The Matcher: final score, winner, confidence *)

Lemma Qmax3_is_max3 (a b c : Q) : is_max3 (Qmax (Qmax a b) c) a b c.
Proof.
  unfold is_max3.
  destruct (Q.max_spec a b) as [[L1 E1] | [L1 E1]];
    destruct (Q.max_spec (Qmax a b) c) as [[L2 E2] | [L2 E2]];
    rewrite E2; rewrite E1 in *; repeat split; try lra;
    first [ left; reflexivity | right; left; reflexivity | right; right; reflexivity ].
Qed.

Lemma finalScore_weighted_max (query : string) (it : QAItem) : weighted_max query it.
Proof.
  unfold weighted_max, finalScore, questionScore, keywordScore, semanticScore, max3.
  destruct (calculateSimilarity_range (toLowerCase query) (toLowerCase (question it)))
    as (l & -> & _).
  destruct (calculateKeywordMatch_range (toLowerCase query) (keywords_or_empty it))
    as (k & -> & _).
  exists l, k. split; [reflexivity|]. split; [reflexivity|].
  destruct (calculateSemanticSimilarity_cases (toLowerCase query) (toLowerCase (question it)))
    as [-> | (s & -> & _)].
  - left. split; reflexivity.
  - right. exists s. eexists. split; [reflexivity|]. split; [reflexivity|].
    apply Qmax3_is_max3.
Qed.

(** C3 on the code: for the query "ok" the entry has the lexical signal 0,
    the keyword signal 1 (weighted 0.8) and the semantic signal [NaN], the
    query having no word of more than two characters; the final score is
    [NaN], not the maximum 0.8, and the Matcher returns no result although
    the entry has the highest weighted signal. *)
Theorem short_query_final_score_not_maximum :
  questionScore "ok" ok_entry = Fin 0
  /\ keywordScore "ok" ok_entry = Fin (1 # 1)
  /\ scale (keywordScore "ok" ok_entry) (8 # 10) = Fin (8 # 10)
  /\ semanticScore "ok" ok_entry = NaN
  /\ finalScore "ok" ok_entry = NaN
  /\ findBestMatch "ok" [ok_entry] = None.
Proof. repeat split. Qed.

(** C4.  The Matcher returns no result, or one result: an entry of the input
    set (copied, with its view counter defaulted to 0) and a confidence that
    is a rational between 0 and 1. *)
Theorem findBestMatch_member_and_unit_confidence (query : string) (qaItems : list QAItem) :
  findBestMatch query qaItems = None
  \/ exists m it c,
       findBestMatch query qaItems = Some m
       /\ In it qaItems
       /\ item m = with_view_count it
       /\ (id (item m) = id it /\ question (item m) = question it
           /\ answer (item m) = answer it /\ keywords (item m) = keywords it
           /\ category_id (item m) = category_id it)
       /\ confidence m = Fin c /\ (0 <= c)%Q /\ (c <= 1)%Q.
Proof.
  destruct (findBestMatch_spec query qaItems) as [[N _] | (w & I & R & G & _)].
  - left. exact N.
  - right. destruct (finalScore_cases query w) as [E | (f & E & F0 & F1)].
    + rewrite E in G. discriminate.
    + exists (mkMatchResult (with_view_count w) (finalScore query w)), w, f.
      split; [exact R|]. split; [exact I|]. split; [reflexivity|].
      split; [repeat split|]. split; [exact E|]. split; assumption.
Qed.

(** C9, as stated, fails: the query "what the" has only stop words, and the
    semantic signal, which keeps stop words, gives the entry the final score
    1, so the Matcher returns it; and for the empty query the keyword signal
    is 1 and the semantic signal is [NaN], not 0. *)
Lemma stop_word_query_matches :
  all_stop_words "what the" = true
  /\ finalScore "what the" warranty_entry = Fin (2 # 2)
  /\ findBestMatch "what the" [warranty_entry]
     = Some (mkMatchResult (with_view_count warranty_entry) (Fin (2 # 2)))
  /\ keywordScore "" warranty_entry = Fin (1 # 1)
  /\ semanticScore "" warranty_entry = NaN.
Proof. vm_compute. repeat split. Qed.

Lemma finalScore_empty_query (it : QAItem) : finalScore "" it = NaN.
Proof.
  unfold finalScore, max3.
  assert (E : semanticScore "" it = NaN) by reflexivity.
  rewrite E. simpl. apply max_NaN_r.
Qed.

(** C9, amended.  The confidence of a result is strictly positive; the
    Matcher returns no result exactly when no entry of the set has a final
    score above 0; and it returns none for the empty query. *)
Theorem findBestMatch_positive_or_none (query : string) (qaItems : list QAItem) :
  (forall m, findBestMatch query qaItems = Some m ->
             exists c, confidence m = Fin c /\ (0 < c)%Q)
  /\ (findBestMatch query qaItems = None
      <-> forall it, In it qaItems -> gt (finalScore query it) (Fin 0) = false)
  /\ findBestMatch "" qaItems = None.
Proof.
  split; [|split].
  - intros m H.
    destruct (findBestMatch_spec query qaItems) as [[N _] | (w & _ & R & G & _)].
    + congruence.
    + rewrite R in H. injection H as <-. simpl.
      destruct (finalScore_cases query w) as [E | (f & E & _)]; rewrite E in *.
      * discriminate.
      * exists f. split; [reflexivity | apply gt_Fin_iff; exact G].
  - split.
    + intros N it Hit.
      destruct (findBestMatch_spec query qaItems) as [[_ F] | (w & _ & R & _)].
      * rewrite Forall_forall in F. apply F. exact Hit.
      * congruence.
    + intros A.
      destruct (findBestMatch_spec query qaItems) as [[N _] | (w & I & _ & G & _)].
      * exact N.
      * rewrite (A w I) in G. discriminate.
  - destruct (findBestMatch_spec "" qaItems) as [[N _] | (w & _ & _ & G & _)].
    + exact N.
    + rewrite finalScore_empty_query in G. discriminate.
Qed.

Lemma findBestMatch_positive_or_none_witness :
  exists c, Fin (2 # 2) = Fin c /\ (0 < c)%Q.
Proof.
  apply (proj1 (findBestMatch_positive_or_none "what the" [warranty_entry])
               (mkMatchResult (with_view_count warranty_entry) (Fin (2 # 2)))).
  reflexivity.
Defined.

(* ================================================================== *)
(** * Tokens of a string with one more word *)

Section Tokens.

Lemma is_space_lower (c : ascii) : is_space (lower_ascii c) = is_space c.
Proof. destruct c as [[] [] [] [] [] [] [] []]; reflexivity. Qed.

Lemma lower_ascii_idem (c : ascii) : lower_ascii (lower_ascii c) = lower_ascii c.
Proof. destruct c as [[] [] [] [] [] [] [] []]; reflexivity. Qed.

Lemma toLowerCase_idem (s : string) : toLowerCase (toLowerCase s) = toLowerCase s.
Proof.
  induction s as [|c r IH]; simpl; [reflexivity|].
  rewrite lower_ascii_idem, IH. reflexivity.
Qed.

Lemma toLowerCase_app (s1 s2 : string) :
  toLowerCase (s1 ++ s2) = (toLowerCase s1 ++ toLowerCase s2)%string.
Proof. induction s1 as [|c r IH]; simpl; [reflexivity | rewrite IH; reflexivity]. Qed.

Lemma no_space_lower (t : string) : no_space (toLowerCase t) = no_space t.
Proof.
  induction t as [|c r IH]; simpl; [reflexivity|].
  rewrite is_space_lower, IH. reflexivity.
Qed.

Lemma split_ws_from_nonempty (b : bool) (s : string) : split_ws_from b s <> [].
Proof.
  revert b. induction s as [|c r IH]; intro b; simpl; [discriminate|].
  destruct (is_space c).
  - destruct b; [apply IH | discriminate].
  - specialize (IH false). destruct (split_ws_from false r); [congruence | discriminate].
Qed.

Lemma split_ws_from_token (b : bool) (t : string) :
  no_space t = true -> split_ws_from b t = [t].
Proof.
  revert b. induction t as [|c r IH]; intros b H; simpl in *; [reflexivity|].
  apply andb_true_iff in H. destruct H as [Hc Hr].
  apply negb_true_iff in Hc. rewrite Hc, (IH false Hr). reflexivity.
Qed.

Lemma push_front_app (c : ascii) (l1 l2 : list string) :
  l1 <> [] -> push_front c (l1 ++ l2) = push_front c l1 ++ l2.
Proof. destruct l1; [congruence | reflexivity]. Qed.

Lemma push_front_nonempty (c : ascii) (l : list string) : push_front c l <> [].
Proof. destruct l; discriminate. Qed.

(** Appending a space and a token [t] to [q] appends [t] to the tokens of
    [q], in the place of the empty token a trailing white space leaves. *)
Lemma split_ws_from_snoc (t : string) :
  no_space t = true ->
  forall (q : string) (b : bool),
    split_ws_from b (q ++ String " " t) = split_ws_from b q ++ [t]
    \/ exists init, (init <> [] \/ b = true)
                    /\ split_ws_from b q = init ++ [EmptyString]
                    /\ split_ws_from b (q ++ String " " t) = init ++ [t].
Proof.
  intros Ht. induction q as [|c r IH]; intro b.
  - simpl. rewrite (split_ws_from_token true t Ht). destruct b.
    + right. exists []. split; [right; reflexivity | split; reflexivity].
    + left. reflexivity.
  - simpl. destruct (is_space c).
    + destruct (IH true) as [E | (init & _ & E1 & E2)]; destruct b.
      * left. exact E.
      * left. rewrite E. reflexivity.
      * right. exists init. split; [right; reflexivity | split; assumption].
      * right. exists (EmptyString :: init).
        split; [left; discriminate|]. rewrite E1, E2. split; reflexivity.
    + destruct (IH false) as [E | (init & [N | N] & E1 & E2)].
      * left. rewrite E. apply push_front_app. apply split_ws_from_nonempty.
      * right. exists (push_front c init).
        split; [left; apply push_front_nonempty|].
        rewrite E1, E2, !push_front_app by exact N. split; reflexivity.
      * discriminate.
Qed.

Lemma filter_split_ws_snoc (P : string -> bool) (q t : string) :
  P EmptyString = false -> no_space t = true ->
  filter P (split_ws (q ++ String " " t)) = filter P (split_ws q) ++ filter P [t].
Proof.
  intros HP Ht. unfold split_ws.
  destruct (split_ws_from_snoc t Ht q false) as [E | (init & _ & E1 & E2)].
  - rewrite E. apply filter_app.
  - rewrite E1, E2, !filter_app. simpl. rewrite HP. rewrite app_nil_r. reflexivity.
Qed.

(** The content words of [q] with the token [t] appended. *)
Lemma content_words_snoc (q t : string) :
  no_space t = true ->
  content_words (q ++ String " " t)
  = content_words q ++ filter content_word [toLowerCase t].
Proof.
  intro Ht. unfold content_words.
  rewrite toLowerCase_app. cbn [toLowerCase].
  change (lower_ascii " ") with " "%char.
  apply filter_split_ws_snoc; [reflexivity | rewrite no_space_lower; exact Ht].
Qed.

End Tokens.

(* ================================================================== *)
(** * The lexical signal with one more shared token *)

Section SharedToken.

Local Abbreviation qn n := (inject_Z (Z.of_nat n)).

Lemma filter_length_mono {A : Type} (f g : A -> bool) (l : list A) :
  (forall x, f x = true -> g x = true) ->
  (List.length (filter f l) <= List.length (filter g l))%nat.
Proof.
  intro H. induction l as [|a l IH]; simpl; [lia|].
  destruct (f a) eqn:F.
  - rewrite (H a F). simpl. lia.
  - destruct (g a); simpl; lia.
Qed.

Lemma arr_includes_app (l1 l2 : list string) (x : string) :
  arr_includes (l1 ++ l2) x = arr_includes l1 x || arr_includes l2 x.
Proof. apply existsb_app. Qed.

Lemma arr_includes_self (x : string) : arr_includes [x] x = true.
Proof. unfold arr_includes. simpl. rewrite String.eqb_refl. reflexivity. Qed.

Lemma exactMatches_snoc (words1 words2 : list string) (t : string) :
  (exactMatches words1 words2 + 1 <= exactMatches (words1 ++ [t]) (words2 ++ [t]))%nat.
Proof.
  unfold exactMatches. rewrite filter_app, length_app. simpl.
  rewrite arr_includes_app, arr_includes_self, orb_true_r. simpl.
  apply Nat.add_le_mono_r. apply filter_length_mono.
  intros x Hx. rewrite arr_includes_app, Hx. reflexivity.
Qed.

Lemma partialMatches_app (l1 l2 words2 : list string) :
  (partialMatches (l1 ++ l2) words2
   == partialMatches l1 words2 + partialMatches l2 words2)%Q.
Proof.
  induction l1 as [|w l IH]; cbn [partialMatches app]; [lra|].
  rewrite IH. lra.
Qed.

Lemma partialMatches_more (words1 words2 extra : list string) :
  (partialMatches words1 words2 <= partialMatches words1 (words2 ++ extra))%Q.
Proof.
  induction words1 as [|w l IH]; cbn [partialMatches]; [lra|].
  rewrite existsb_app.
  destruct (existsb (partial_pair w) words2); cbn [orb].
  - lra.
  - destruct (existsb (partial_pair w) extra); lra.
Qed.

Lemma totalMatches_snoc (words1 words2 : list string) (t : string) :
  (totalMatches words1 words2 + 1 <= totalMatches (words1 ++ [t]) (words2 ++ [t]))%Q.
Proof.
  unfold totalMatches. rewrite partialMatches_app.
  pose proof (partialMatches_more words1 words2 [t]) as P.
  pose proof (partialMatches_bounds [t] (words2 ++ [t])) as [P0 _].
  pose proof (qn_le _ _ (exactMatches_snoc words1 words2 t)) as E.
  rewrite Nat.add_1_r, qn_S in E. lra.
Qed.

(** The score of two lists of content words, neither empty. *)
Lemma calculateSimilarity_words (str1 str2 : string) :
  content_words str1 <> [] -> content_words str2 <> [] ->
  calculateSimilarity str1 str2
  = Fin (totalMatches (content_words str1) (content_words str2)
         / qn (Nat.max (List.length (content_words str1))
                       (List.length (content_words str2)))).
Proof.
  intros H1 H2. unfold calculateSimilarity.
  destruct (content_words str1) as [|a l1]; [congruence|].
  destruct (content_words str2) as [|b l2]; [congruence|].
  reflexivity.
Qed.

Lemma calculateSimilarity_no_words (str1 str2 : string) :
  content_words str1 = [] \/ content_words str2 = [] ->
  calculateSimilarity str1 str2 = Fin 0.
Proof.
  intros [H | H]; unfold calculateSimilarity; rewrite H; simpl.
  - reflexivity.
  - rewrite orb_true_r. reflexivity.
Qed.

(** With a score of at most 1, one more match over one more word does not
    lower the quotient. *)
Lemma quotient_grows (T T' : Q) (M : nat) :
  (0 < M)%nat -> (T / qn M <= 1)%Q -> (T + 1 <= T')%Q ->
  (T / qn M <= T' / qn (S M))%Q.
Proof.
  intros HM H1 HT. pose proof (qn_pos M HM) as P.
  apply Qle_shift_div_l; [rewrite qn_S; lra|].
  rewrite qn_S.
  assert (E : (T / qn M * qn M == T)%Q)
    by (rewrite Qmult_comm; apply Qmult_div_r; lra).
  set (x := (T / qn M)%Q) in *.
  setoid_replace (x * (qn M + 1))%Q with (x * qn M + x)%Q by ring.
  lra.
Qed.

End SharedToken.

(** C8, as stated, fails: a query word that has an exact match and a partial
    match counts 1.5, so the score of "scooter scooter" against "scooter
    scooters" is 3/2, and with the shared token "battery" added to both it is
    4/3. *)
Lemma shared_token_lowers_score :
  calculateSimilarity "scooter scooter" "scooter scooters" = Fin (12 # 8)
  /\ calculateSimilarity ("scooter scooter" ++ " " ++ "battery")
                         ("scooter scooters" ++ " " ++ "battery") = Fin (16 # 12)
  /\ ~ (12 # 8 <= 16 # 12)%Q.
Proof.
  split; [reflexivity | split; [reflexivity|]].
  intro H. unfold Qle in H. simpl in H. lia.
Qed.

(** C8, amended.  When the lexical signal of a query and a question is at
    most 1, appending one token (a string without white space) to both does
    not decrease it. *)
Theorem calculateSimilarity_shared_token (query question t : string) (l : Q) :
  no_space t = true ->
  calculateSimilarity query question = Fin l ->
  (l <= 1)%Q ->
  exists l', calculateSimilarity (query ++ " " ++ t) (question ++ " " ++ t) = Fin l'
             /\ (l <= l')%Q.
Proof.
  intros Ht Hl H1. cbn [String.append].
  destruct (filter content_word [toLowerCase t]) as [|t' rest] eqn:Et.
  - (* the token is dropped by the filter: the words are the same *)
    exists l. split; [|lra].
    unfold calculateSimilarity in *.
    rewrite !content_words_snoc, Et, !app_nil_r by exact Ht. exact Hl.
  - assert (rest = []) as ->.
    { simpl in Et. destruct (content_word (toLowerCase t)); congruence. }
    pose proof (content_words_snoc query t Ht) as W1. rewrite Et in W1.
    pose proof (content_words_snoc question t Ht) as W2. rewrite Et in W2.
    rewrite calculateSimilarity_words
      by (first [rewrite W1 | rewrite W2]; intro N; apply app_eq_nil in N;
          destruct N; discriminate).
    rewrite W1, W2, !length_app. simpl List.length.
    rewrite !Nat.add_1_r, <- Nat.succ_max_distr.
    eexists. split; [reflexivity|].
    pose proof (totalMatches_snoc (content_words query) (content_words question) t') as S1.
    pose proof (totalMatches_bounds (content_words query) (content_words question))
      as [T0 _].
    destruct (content_words query) as [|a l1] eqn:E1;
      [|destruct (content_words question) as [|b l2] eqn:E2].
    + rewrite calculateSimilarity_no_words in Hl by (left; exact E1).
      injection Hl as <-.
      apply Qle_shift_div_l; [apply qn_pos; lia | lra].
    + rewrite calculateSimilarity_no_words in Hl by (right; exact E2).
      injection Hl as <-.
      apply Qle_shift_div_l; [apply qn_pos; lia | lra].
    + rewrite calculateSimilarity_words in Hl
        by (first [rewrite E1 | rewrite E2]; discriminate).
      rewrite E1, E2 in Hl. injection Hl as <-.
      apply (quotient_grows _ _ (Nat.max (List.length (a :: l1)) (List.length (b :: l2))));
        [simpl; lia | exact H1 | exact S1].
Qed.

Lemma calculateSimilarity_shared_token_witness :
  exists l', calculateSimilarity ("return policy" ++ " " ++ "refund")
                                 ("what is the return policy" ++ " " ++ "refund") = Fin l'
             /\ (2 # 2 <= l')%Q.
Proof.
  apply (calculateSimilarity_shared_token "return policy" "what is the return policy"
           "refund" (2 # 2)).
  - reflexivity.
  - reflexivity.
  - discriminate.
Defined.

(* ================================================================== *)
(** * The three signals of a candidate *)

(** C5, as stated, fails: against the entry "Scooter scooters" the lexical
    signal of the query "scooter scooter" is 3/2, and the semantic signal of
    the empty query is [NaN]. *)
Lemma signals_outside_unit_interval :
  questionScore "scooter scooter" scooters_entry = Fin (12 # 8)
  /\ ~ (12 # 8 <= 1)%Q
  /\ semanticScore "" scooters_entry = NaN.
Proof.
  split; [reflexivity | split; [|reflexivity]].
  intro H. unfold Qle in H. simpl in H. lia.
Qed.

(** C5, amended.  For every query and entry the lexical signal is a rational
    between 0 and 3/2 and the keyword signal a rational between 0 and 1; the
    semantic signal is a rational between 0 and 1 when the query has a word
    of more than two characters. *)
Theorem signals_ranges (query : string) (it : QAItem) :
  (exists l, questionScore query it = Fin l /\ (0 <= l)%Q /\ (l <= 3 # 2)%Q)
  /\ (exists k, keywordScore query it = Fin k /\ (0 <= k)%Q /\ (k <= 1)%Q)
  /\ (long_words query <> [] ->
      exists s, semanticScore query it = Fin s /\ (0 <= s)%Q /\ (s <= 1)%Q).
Proof.
  split; [apply calculateSimilarity_range|].
  split; [apply calculateKeywordMatch_range|].
  intro H. apply calculateSemanticSimilarity_range.
  unfold long_words in *. rewrite toLowerCase_idem. exact H.
Qed.

Lemma signals_ranges_witness :
  exists s, semanticScore "how fast can it go" warranty_entry = Fin s
            /\ (0 <= s)%Q /\ (s <= 1)%Q.
Proof.
  apply (signals_ranges "how fast can it go" warranty_entry).
  discriminate.
Defined.

(* ================================================================== *)
(** * The SuggestionGenerator *)

Section Suggestions.

Lemma suggestion_loop_length (queryWords : list string) (qaItems : list QAItem) :
  forall suggestions,
    (List.length suggestions <= 3)%nat ->
    (List.length (suggestion_loop queryWords qaItems suggestions) <= 3)%nat.
Proof.
  induction qaItems as [|it rest IH]; intros s H; simpl; [exact H|].
  destruct (0 <? _)%nat; simpl; [|apply IH; exact H].
  destruct (List.length s <? 3)%nat eqn:E; [|apply IH; exact H].
  apply Nat.ltb_lt in E. apply IH. rewrite length_app. simpl. lia.
Qed.

(** Three entries or more stop the padding; fewer are padded to three. *)
Lemma padding_loop_full (general suggestions : list string) :
  (3 <= List.length suggestions)%nat -> padding_loop general suggestions = suggestions.
Proof.
  revert suggestions. induction general as [|q rest IH]; intros s H; simpl; [reflexivity|].
  destruct (List.length s <? 3)%nat eqn:E.
  - apply Nat.ltb_lt in E. lia.
  - simpl. apply IH. exact H.
Qed.

Ltac split_eqb :=
  match goal with
  | |- context [String.eqb ?a ?b] =>
      destruct (String.eqb_spec a b); [subst; try discriminate|]
  end.

Lemma padding_loop_three (suggestions : list string) :
  (List.length suggestions < 3)%nat ->
  List.length (padding_loop generalQuestions suggestions) = 3%nat.
Proof.
  intro H.
  destruct suggestions as [|a [|b [|c rest]]]; [| | |simpl in H; lia].
  - reflexivity.
  - unfold generalQuestions, padding_loop, arr_includes. cbn [existsb List.length app].
    repeat (split_eqb; cbn [orb negb andb Nat.ltb Nat.leb List.length app existsb]);
      reflexivity.
  - unfold generalQuestions, padding_loop, arr_includes. cbn [existsb List.length app].
    repeat (split_eqb; cbn [orb negb andb Nat.ltb Nat.leb List.length app existsb]);
      reflexivity.
Qed.

End Suggestions.

(** At most three suggestions. *)
Lemma generateSuggestedQuestions_at_most_3 (query : string) (qaItems : list QAItem) :
  (List.length (generateSuggestedQuestions query qaItems) <= 3)%nat.
Proof.
  unfold generateSuggestedQuestions.
  pose proof (suggestion_loop_length (split_char " " (toLowerCase query)) qaItems []
                ltac:(simpl; lia)) as L.
  destruct (List.length _ <? 3)%nat eqn:E.
  - apply Nat.ltb_lt in E. rewrite padding_loop_three by exact E. lia.
  - exact L.
Qed.

(** C10.  The SuggestionGenerator returns exactly three suggestions. *)
Theorem generateSuggestedQuestions_exactly_3 (query : string) (qaItems : list QAItem) :
  List.length (generateSuggestedQuestions query qaItems) = 3%nat.
Proof.
  unfold generateSuggestedQuestions.
  pose proof (suggestion_loop_length (split_char " " (toLowerCase query)) qaItems []
                ltac:(simpl; lia)) as L.
  destruct (List.length _ <? 3)%nat eqn:E.
  - apply Nat.ltb_lt in E. apply padding_loop_three. exact E.
  - apply Nat.ltb_ge in E. lia.
Qed.

(** C7 on the code: two entries with the same question text, both sharing
    the token "track" with the query, are both proposed, and the list of
    suggestions has a duplicate. *)
Theorem generateSuggestedQuestions_duplicate :
  generateSuggestedQuestions "track" [track_entry "e3"; track_entry "e4"]
  = ["How do I track my order?"; "How do I track my order?";
     "What is the warranty policy?"]
  /\ ~ NoDup (generateSuggestedQuestions "track" [track_entry "e3"; track_entry "e4"]).
Proof.
  split; [reflexivity|].
  intro N. vm_compute in N. inversion N as [|x l Hx _]. apply Hx. left. reflexivity.
Qed.

(* ================================================================== *)
(** * The Router *)

Section IntentFacts.

Variable regexp_test_i : string -> string -> option bool.
Variable query : string.


(** The three ways the loop ends. *)
Lemma detectIntent_cases (patterns : list IntentPattern) :
  (exists tried p rest,
      patterns = tried ++ p :: rest
      /\ none_matches regexp_test_i query tried
      /\ regexp_test_i (pattern p) query = Some true
      /\ detectIntent regexp_test_i query patterns = Some (intent p))
  \/ (none_matches regexp_test_i query patterns
      /\ detectIntent regexp_test_i query patterns = Some "general_inquiry")
  \/ (exists tried p rest,
         patterns = tried ++ p :: rest
         /\ none_matches regexp_test_i query tried
         /\ regexp_test_i (pattern p) query = None
         /\ detectIntent regexp_test_i query patterns = None).
Proof.
  induction patterns as [|p rest IH].
  - right. left. split; [constructor | reflexivity].
  - simpl. destruct (regexp_test_i (pattern p) query) as [[|]|] eqn:E.
    + left. exists [], p, rest. repeat split; [constructor | exact E].
    + destruct IH as [(tried & p' & rest' & -> & N & T & D)
                     | [[N D] | (tried & p' & rest' & -> & N & T & D)]].
      * left. exists (p :: tried), p', rest'.
        split; [reflexivity|]. split; [constructor; assumption|]. split; assumption.
      * right. left. split; [constructor; assumption | exact D].
      * right. right. exists (p :: tried), p', rest'.
        split; [reflexivity|]. split; [constructor; assumption|]. split; assumption.
    + right. right. exists [], p, rest. repeat split; [constructor | exact E].
Qed.




End IntentFacts.

Section RouterFacts.

Variable regexp_test_i : string -> string -> option bool.
Variable gemini : string -> FetchResult.
Variable threshold : Q.
Variable req : Request.
Variable qaItems : list QAItem.
Variable intentPatterns : list IntentPattern.

Let routed (bestMatch : option MatchResult) : Routed :=
  route regexp_test_i gemini threshold bestMatch req qaItems intentPatterns.

Lemma route_faq (m : MatchResult) :
  gt (confidence m) (Fin threshold) = true ->
  routed (Some m)
  = mkRouted (answer (item m)) (confidence m) (Some "")
             (findRelatedItems (item m) qaItems) "qa_database"
             (Some (id (item m), (or_default (view_count (item m)) 0 + 1)%Z)).
Proof. intro G. unfold routed, route. rewrite G. reflexivity. Qed.

Lemma route_fallback (bestMatch : option MatchResult) :
  (forall m, bestMatch = Some m -> gt (confidence m) (Fin threshold) = false) ->
  routed bestMatch
  = let g := callGeminiAPI gemini (query req) qaItems (hasFiles req) (fileTypes req) in
    mkRouted (g_answer g) (Fin (g_confidence g))
             (detectIntent regexp_test_i (query req) intentPatterns) [] "ai" None.
Proof.
  intro H. unfold routed, route. destruct bestMatch as [m|]; [|reflexivity].
  rewrite (H m eq_refl). reflexivity.
Qed.

End RouterFacts.




(** ** The fallback that fails *)

(** C2, as stated, fails: a response with status 503 and a JSON body
    without candidates is a failed call, and the Router answers with the
    other fixed message and confidence 0.8; so does a response with status
    200 and such a body. *)
Lemma failed_call_without_exception :
  let r status :=
    route (fun _ _ => Some false) (fun _ => Responded status (JsonData None)) threshold_used
          None sample_request [warranty_entry] [] in
  fallback_failed (Responded 503 (JsonData None)) = true
  /\ response (r 503%nat) = unable_message
  /\ routed_confidence (r 503%nat) = Fin (8 # 10)
  /\ fallback_failed (Responded 200 (JsonData None)) = true
  /\ response (r 200%nat) = unable_message
  /\ routed_confidence (r 200%nat) = Fin (8 # 10)
  /\ unable_message <> difficulties_message.
Proof. cbv zeta. repeat split. discriminate. Qed.

(** C2, amended.  On the fallback path the Router always returns, with
    source "ai": when the call raises ([fetch] rejects, or the body is not
    JSON or is [null]) the response is the message of technical difficulties
    and the confidence 0.1; when the endpoint answers with a JSON body,
    whatever the status, the confidence is 0.8, and without candidate text
    the response is the message of the request that cannot be processed. *)
Theorem route_fallback_never_raises (regexp_test_i : string -> string -> option bool)
        (gemini : string -> FetchResult) (threshold : Q)
        (bestMatch : option MatchResult) (req : Request)
        (qaItems : list QAItem) (intentPatterns : list IntentPattern) :
  (forall m, bestMatch = Some m -> gt (confidence m) (Fin threshold) = false) ->
  let o := gemini (prompt (query req) qaItems (hasFiles req) (fileTypes req)) in
  let r := route regexp_test_i gemini threshold bestMatch req qaItems intentPatterns in
  responseSource r = "ai"
  /\ (call_throws o = true ->
      response r = difficulties_message /\ routed_confidence r = Fin (1 # 10))
  /\ (call_throws o = false ->
      routed_confidence r = Fin (8 # 10)
      /\ (candidate_text o = None -> response r = unable_message)).
Proof.
  intro H. cbv zeta. rewrite route_fallback by exact H. cbv zeta. simpl.
  unfold callGeminiAPI.
  destruct (gemini _) as [|status [| |[t|]]]; simpl;
    (split; [reflexivity|]); split; intro C; try discriminate C.
  - split; reflexivity.
  - split; reflexivity.
  - split; reflexivity.
  - split; [reflexivity | intro N; discriminate N].
  - split; [reflexivity | intros _; reflexivity].
Qed.

Lemma route_fallback_never_raises_witness :
  let r := route (fun _ _ => Some false) (fun _ => NetworkError) threshold_used
                 None sample_request [warranty_entry] [] in
  response r = difficulties_message /\ routed_confidence r = Fin (1 # 10).
Proof.
  cbv zeta.
  pose proof (route_fallback_never_raises (fun _ _ => Some false) (fun _ => NetworkError)
                threshold_used None sample_request [warranty_entry] []) as H.
  cbv zeta in H.
  destruct H as (_ & T & _); [discriminate | apply T; reflexivity].
Defined.

(* ================================================================== *)
(** * The view counter *)

Section ViewCounter.

Variable regexp_test_i : string -> string -> option bool.
Variable gemini : string -> FetchResult.
Variable insert_message : Message -> option string.
Variable now : Z.

Lemma select_qa_items_no_view_count (st : Store) (it : QAItem) :
  In it (select_qa_items st) -> view_count it = None.
Proof.
  unfold select_qa_items. rewrite in_map_iff.
  intros (r & <- & _). reflexivity.
Qed.

Lemma update_view_count_sets (i : string) (v : Z) (rows : list QARow) :
  Forall (fun c => c = Some v)
         (map row_view_count
              (filter (fun r => String.eqb (row_id r) i) (update_view_count now i v rows))).
Proof.
  induction rows as [|r rest IH]; simpl; [constructor|].
  destruct (String.eqb (row_id r) i) eqn:E; simpl; rewrite E; simpl.
  - constructor; [reflexivity | exact IH].
  - exact IH.
Qed.

(** On the FAQ path the handler writes 1 into the view counter of the rows
    of the matched entry, whatever the counter was: the objects it matched
    carry no [view_count], so the value it adds 1 to is the default 0. *)
Lemma serve_writes_one (st : Store) (req : Request) (m : MatchResult) :
  findBestMatch (query req) (select_qa_items st) = Some m ->
  gt (confidence m) (Fin threshold_used) = true ->
  Forall (fun c => c = Some 1%Z)
         (view_counts (id (item m))
                      (fst (serve regexp_test_i gemini insert_message now st req))).
Proof.
  intros B G. unfold serve, view_counts. rewrite B.
  rewrite route_faq by exact G. cbn [matchedIntent viewUpdate fst qa_items].
  destruct (findBestMatch_spec (query req) (select_qa_items st))
    as [[N _] | (w & I & R & _)]; [congruence|].
  rewrite R in B. injection B as <-. cbn [item id view_count with_view_count].
  rewrite (select_qa_items_no_view_count st w I). cbn [or_default].
  apply update_view_count_sets.
Qed.

End ViewCounter.

(** C1 on the code: the entry "e5" has 5 views; two requests in sequence
    both answer from it (the message stored, when the insert succeeds, has
    the source "qa_database"), and its counter is 1 after the first and 1
    after the second, not 6 and 7, whatever the insert does. *)
Theorem view_count_not_incremented (regexp_test_i : string -> string -> option bool)
        (gemini : string -> FetchResult) (insert_message : Message -> option string)
        (now1 now2 : Z) :
  let st1 := fst (serve regexp_test_i gemini insert_message now1
                        sample_store sample_request) in
  let st2 := fst (serve regexp_test_i gemini insert_message now2 st1 sample_request) in
  let stored1 := fst (serve regexp_test_i gemini (fun _ => Some "m1") now1
                            sample_store sample_request) in
  let stored2 := fst (serve regexp_test_i gemini (fun _ => Some "m2") now2
                            stored1 sample_request) in
  view_counts "e5" sample_store = [Some 5%Z]
  /\ last_source stored1 = Some "qa_database"
  /\ view_counts "e5" st1 = [Some 1%Z]
  /\ last_source stored2 = Some "qa_database"
  /\ view_counts "e5" st2 = [Some 1%Z]
  /\ view_counts "e5" stored2 = [Some 1%Z].
Proof. cbv zeta. repeat split. Qed.

(* ================================================================== *)
(** * Synonyms and related entries *)

Section Related.

Lemma existsb_pointwise {A : Type} (f g : A -> bool) (l : list A) :
  (forall x, f x = g x) -> existsb f l = existsb g l.
Proof.
  intro H. induction l as [|a l IH]; simpl; [reflexivity|].
  rewrite H, IH. reflexivity.
Qed.

Lemma In_firstn {A : Type} (n : nat) (l : list A) (x : A) :
  In x (firstn n l) -> In x l.
Proof.
  revert l. induction n as [|n IH]; intros [|a l] H; simpl in *; try contradiction.
  destruct H as [H | H]; [left; exact H | right; apply IH; exact H].
Qed.

Lemma category_test_iff (o it : QAItem) :
  match category_id o, category_id it with
  | Some c1, Some c2 => String.eqb c1 c2
  | None, None => true
  | _, _ => false
  end = true <-> same_category o it.
Proof.
  unfold same_category.
  destruct (category_id o) as [c1|], (category_id it) as [c2|]; split; intro H;
    try discriminate; try reflexivity.
  - apply String.eqb_eq in H. subst. reflexivity.
  - injection H as ->. apply String.eqb_refl.
Qed.

End Related.

(** X1.  The synonym test is symmetric. *)
Theorem areSimilarWords_sym (word1 word2 : string) :
  areSimilarWords word1 word2 = areSimilarWords word2 word1.
Proof.
  unfold areSimilarWords. apply existsb_pointwise. intros [key values].
  destruct (String.eqb word1 key), (String.eqb word2 key),
    (arr_includes values word1), (arr_includes values word2); reflexivity.
Qed.

(** X2.  The related entries are at most three identifiers; each is the
    identifier of an entry of the list other than the matched one, with the
    category of the matched one; the matched identifier is not among them. *)
Theorem findRelatedItems_sound (it : QAItem) (allItems : list QAItem) :
  (List.length (findRelatedItems it allItems) <= 3)%nat
  /\ ~ In (id it) (findRelatedItems it allItems)
  /\ forall i, In i (findRelatedItems it allItems) ->
               exists o, In o allItems /\ id o = i /\ id o <> id it /\ same_category o it.
Proof.
  assert (S : forall i, In i (findRelatedItems it allItems) ->
                exists o, In o allItems /\ id o = i /\ id o <> id it /\ same_category o it).
  { intros i H. unfold findRelatedItems in H.
    apply in_map_iff in H. destruct H as (o & E & H).
    apply In_firstn in H. apply filter_In in H. destruct H as [I T].
    apply andb_true_iff in T. destruct T as [T1 T2].
    exists o. split; [exact I|]. split; [exact E|].
    split; [|apply category_test_iff; exact T2].
    apply negb_true_iff in T1. apply String.eqb_neq. exact T1. }
  split; [|split; [|exact S]].
  - unfold findRelatedItems. rewrite length_map. apply firstn_le_length.
  - intro H. destruct (S _ H) as (o & _ & E & N & _). contradiction.
Qed.

(** In a list of at most three entries every other entry of the category is
    related. *)
Lemma findRelatedItems_all_when_few (it : QAItem) (allItems : list QAItem) :
  (List.length allItems <= 3)%nat ->
  forall o, In o allItems -> id o <> id it -> same_category o it ->
            In (id o) (findRelatedItems it allItems).
Proof.
  intros L o I N C. unfold findRelatedItems.
  rewrite firstn_all2.
  - apply in_map. apply filter_In. split; [exact I|].
    apply andb_true_iff. split.
    + apply negb_true_iff. apply String.eqb_neq. exact N.
    + apply category_test_iff. exact C.
  - etransitivity; [apply filter_length_le | exact L].
Qed.

(* ================================================================== *)
(** * Ties in the Matcher *)

Section Ties.

Variable query : string.

Let fs := finalScore query.

Lemma below_winner (x h w : Num) :
  gt x h = false -> gt w h = true -> gt w x = true \/ x = NaN.
Proof.
  destruct x as [a| |], h as [b| |], w as [c| |]; simpl; intros H1 H2;
    try discriminate; auto.
  left. apply gt_Fin_iff. apply gt_Fin_iff in H2. apply gt_Fin_false_iff in H1. lra.
Qed.

(** When the loop ends on a new entry, the entries before it score lower (or
    [NaN]) and those after it do not score higher. *)
Lemma findBestMatch_loop_first (qaItems : list QAItem) :
  forall (bestMatch : option MatchResult) (highestScore : Num),
    (findBestMatch_loop query qaItems bestMatch highestScore = bestMatch
     /\ Forall (fun it => gt (fs it) highestScore = false) qaItems)
    \/ exists pre w post,
         qaItems = pre ++ w :: post
         /\ findBestMatch_loop query qaItems bestMatch highestScore
            = Some (mkMatchResult (with_view_count w) (fs w))
         /\ gt (fs w) highestScore = true
         /\ Forall (fun x => gt (fs w) (fs x) = true \/ fs x = NaN) pre
         /\ Forall (fun x => gt (fs x) (fs w) = false) post.
Proof.
  induction qaItems as [|a l IH]; intros bm hs.
  - left. split; [reflexivity | constructor].
  - simpl. fold fs. destruct (gt (fs a) hs) eqn:E.
    + right.
      destruct (IH (Some (mkMatchResult (with_view_count a) (fs a))) (fs a))
        as [[R F] | (pre & w & post & -> & R & G & Fp & Fq)].
      * exists [], a, l. split; [reflexivity|]. split; [exact R|].
        split; [exact E|]. split; [constructor | exact F].
      * exists (a :: pre), w, post. split; [reflexivity|]. split; [exact R|].
        split; [eapply gt_trans; eauto|].
        split; [constructor; [left; exact G | exact Fp] | exact Fq].
    + destruct (IH bm hs) as [[R F] | (pre & w & post & -> & R & G & Fp & Fq)].
      * left. split; [exact R | constructor; assumption].
      * right. exists (a :: pre), w, post. split; [reflexivity|]. split; [exact R|].
        split; [exact G|].
        split; [constructor; [eapply below_winner; eauto | exact Fp] | exact Fq].
Qed.

End Ties.

(** X3.  A result of the Matcher is the first entry with the highest final
    score: the entries before it score strictly lower (or [NaN]) and the
    entries after it do not score higher. *)
Theorem findBestMatch_first_of_ties (query : string) (qaItems : list QAItem)
        (m : MatchResult) :
  findBestMatch query qaItems = Some m ->
  exists pre w post,
    qaItems = pre ++ w :: post
    /\ m = mkMatchResult (with_view_count w) (finalScore query w)
    /\ Forall (fun x => gt (finalScore query w) (finalScore query x) = true
                        \/ finalScore query x = NaN) pre
    /\ Forall (fun x => gt (finalScore query x) (finalScore query w) = false) post.
Proof.
  intro H.
  destruct (findBestMatch_loop_first query qaItems None (Fin 0))
    as [[R _] | (pre & w & post & E & R & _ & Fp & Fq)].
  - unfold findBestMatch in H. congruence.
  - exists pre, w, post. unfold findBestMatch in H. rewrite R in H.
    injection H as <-. repeat split; assumption.
Qed.

Lemma findBestMatch_first_of_ties_witness :
  exists pre w post,
    [track_entry "e3"; track_entry "e4"] = pre ++ w :: post
    /\ mkMatchResult (with_view_count (track_entry "e3")) (Fin (1 # 1))
       = mkMatchResult (with_view_count w) (finalScore "track" w)
    /\ Forall (fun x => gt (finalScore "track" w) (finalScore "track" x) = true
                        \/ finalScore "track" x = NaN) pre
    /\ Forall (fun x => gt (finalScore "track" x) (finalScore "track" w) = false) post.
Proof.
  apply (findBestMatch_first_of_ties "track" [track_entry "e3"; track_entry "e4"]).
  reflexivity.
Defined.

(* ================================================================== *)
(** * Queries that always or never match *)

Section QueryShapes.

Local Abbreviation qn n := (inject_Z (Z.of_nat n)).

Lemma filter_all {A : Type} (f : A -> bool) (l : list A) :
  (forall x, In x l -> f x = true) -> filter f l = l.
Proof.
  induction l as [|a l IH]; intro H; simpl; [reflexivity|].
  rewrite (H a (or_introl eq_refl)), IH; [reflexivity|].
  intros x Hx. apply H. right. exact Hx.
Qed.

Lemma filter_none {A : Type} (f : A -> bool) (l : list A) :
  (forall x, In x l -> f x = false) -> filter f l = [].
Proof.
  induction l as [|a l IH]; intro H; simpl; [reflexivity|].
  rewrite (H a (or_introl eq_refl)). apply IH.
  intros x Hx. apply H. right. exact Hx.
Qed.

Lemma arr_includes_In (l : list string) (x : string) :
  arr_includes l x = true <-> In x l.
Proof.
  unfold arr_includes. rewrite existsb_exists. split.
  - intros (y & I & E). apply String.eqb_eq in E. subst. exact I.
  - intro I. exists x. split; [exact I | apply String.eqb_refl].
Qed.

Lemma exactMatches_self (words : list string) :
  exactMatches words words = List.length words.
Proof.
  unfold exactMatches. rewrite filter_all; [reflexivity|].
  intros x Hx. apply arr_includes_In. exact Hx.
Qed.

Lemma content_words_lower (s : string) : content_words (toLowerCase s) = content_words s.
Proof. unfold content_words. rewrite toLowerCase_idem. reflexivity. Qed.

Lemma long_words_lower (s : string) : long_words (toLowerCase s) = long_words s.
Proof. unfold long_words. rewrite toLowerCase_idem. reflexivity. Qed.

Lemma content_word_long (w : string) : content_word w = true -> long_word w = true.
Proof. unfold content_word, long_word. intro H. apply andb_true_iff in H. tauto. Qed.

Lemma content_words_long_words (s : string) : content_words s <> [] -> long_words s <> [].
Proof.
  unfold content_words, long_words. intros H N. apply H.
  apply filter_none. intros x Hx.
  destruct (content_word x) eqn:E; [|reflexivity].
  assert (I : In x (filter long_word (split_ws (toLowerCase s)))).
  { apply filter_In. split; [exact Hx | apply content_word_long; exact E]. }
  rewrite N in I. contradiction.
Qed.

(** A text scored against itself: every word has an exact match. *)
Lemma calculateSimilarity_self (s : string) :
  content_words s <> [] ->
  exists l, calculateSimilarity s s = Fin l /\ (1 <= l)%Q.
Proof.
  intro H. rewrite calculateSimilarity_words by exact H.
  eexists. split; [reflexivity|].
  rewrite Nat.max_id.
  assert (P : (0 < qn (List.length (content_words s)))%Q).
  { apply qn_pos. destruct (content_words s); [congruence | simpl; lia]. }
  apply Qle_shift_div_l; [exact P|].
  unfold totalMatches. rewrite exactMatches_self.
  pose proof (partialMatches_bounds (content_words s) (content_words s)) as [P0 _].
  lra.
Qed.

(** ** Substrings and tokens *)

Lemma prefix_length (p s : string) :
  String.prefix p s = true -> (String.length p <= String.length s)%nat.
Proof.
  revert s. induction p as [|c p IH]; intros [|d s] H; simpl in *; try lia; try discriminate.
  destruct (Ascii.ascii_dec c d); [|discriminate].
  specialize (IH s H). lia.
Qed.

Lemma includes_length (s sub : string) :
  includes s sub = true -> (String.length sub <= String.length s)%nat.
Proof.
  induction s as [|c r IH]; cbn [includes]; intro H.
  - rewrite orb_false_r in H. apply prefix_length in H. exact H.
  - apply orb_true_iff in H. destruct H as [H | H].
    + apply prefix_length in H. exact H.
    + specialize (IH H). simpl. lia.
Qed.

Lemma includes_tail (c : ascii) (s sub : string) :
  includes s sub = true -> includes (String c s) sub = true.
Proof. intro H. cbn [includes]. rewrite H. apply orb_true_r. Qed.

Lemma includes_prefix (s sub : string) :
  String.prefix sub s = true -> includes s sub = true.
Proof. intro H. destruct s; cbn [includes]; rewrite H; reflexivity. Qed.

(** A prefix of [s] without white space is a prefix of the first token. *)
Lemma prefix_first_token (sub : string) :
  no_space sub = true ->
  forall (s : string) (b : bool),
    sub <> EmptyString -> String.prefix sub s = true ->
    exists tok rest, split_ws_from b s = tok :: rest /\ String.prefix sub tok = true.
Proof.
  induction sub as [|c sub IH]; intros Hs s b Hne Hp; [congruence|].
  destruct s as [|d s]; [discriminate Hp|].
  simpl in Hp. destruct (Ascii.ascii_dec c d) as [<-|]; [|discriminate].
  simpl in Hs. apply andb_true_iff in Hs. destruct Hs as [Hc Hs].
  apply negb_true_iff in Hc. simpl. rewrite Hc.
  destruct sub as [|c' sub'].
  - destruct (split_ws_from false s) as [|t ts] eqn:E.
    + exfalso. eapply split_ws_from_nonempty; eauto.
    + exists (String c t), ts. split; [reflexivity|].
      simpl. destruct (Ascii.ascii_dec c c); [destruct t; reflexivity | congruence].
  - destruct (IH Hs s false ltac:(discriminate) Hp) as (tok & rest & E & P).
    rewrite E. exists (String c tok), rest. split; [reflexivity|].
    cbn [String.prefix]. destruct (Ascii.ascii_dec c c); [exact P | congruence].
Qed.

(** A substring without white space lies inside one token. *)
Lemma includes_token (sub : string) :
  no_space sub = true -> sub <> EmptyString ->
  forall (s : string) (b : bool),
    includes s sub = true ->
    exists tok, In tok (split_ws_from b s) /\ includes tok sub = true.
Proof.
  intros Hs Hne. induction s as [|c r IH]; intros b H.
  - cbn [includes] in H. rewrite orb_false_r in H.
    destruct sub; [congruence | discriminate H].
  - cbn [includes] in H. apply orb_true_iff in H. destruct H as [H | H].
    + destruct (prefix_first_token sub Hs (String c r) b Hne H) as (tok & rest & E & P).
      exists tok. split; [rewrite E; left; reflexivity | apply includes_prefix; exact P].
    + simpl. destruct (is_space c).
      * destruct (IH true H) as (tok & I & T). exists tok.
        split; [|exact T]. destruct b; [exact I | right; exact I].
      * destruct (IH false H) as (tok & I & T).
        destruct (split_ws_from false r) as [|t ts]; [contradiction|].
        destruct I as [<- | I].
        -- exists (String c t). split; [left; reflexivity | apply includes_tail; exact T].
        -- exists tok. split; [right; exact I | exact T].
Qed.

(** Without a word of more than two characters, a text has none of the
    words the boosts look for. *)
Lemma no_long_word_no_substring (s sub : string) :
  no_space sub = true -> (2 < String.length sub)%nat ->
  filter long_word (split_ws s) = [] -> includes s sub = false.
Proof.
  intros Hs Hl Hf. destruct (includes s sub) eqn:E; [|reflexivity].
  assert (Hne : sub <> EmptyString) by (destruct sub; [simpl in Hl; lia | discriminate]).
  destruct (includes_token sub Hs Hne s false E) as (tok & I & T).
  apply includes_length in T.
  assert (In tok (filter long_word (split_ws s))).
  { apply filter_In. split; [exact I|]. unfold long_word. apply Nat.ltb_lt. lia. }
  rewrite Hf in H. contradiction.
Qed.

Lemma finalScore_no_long_word (query : string) (it : QAItem) :
  long_words query = [] -> finalScore query it = NaN.
Proof.
  intro H. unfold finalScore, max3.
  assert (E : semanticScore query it = NaN).
  { unfold semanticScore, calculateSemanticSimilarity.
    fold (long_words (toLowerCase query)). rewrite long_words_lower, H.
    assert (T : filter long_word (split_ws (toLowerCase query)) = []) by exact H.
    unfold patternBoost.
    rewrite !(no_long_word_no_substring (toLowerCase query)) by
      (first [reflexivity | simpl; lia | exact T]).
    reflexivity. }
  rewrite E. simpl. apply max_NaN_r.
Qed.

End QueryShapes.

(** X4.  A query that is, up to case, the question of an entry of the set
    and has a content word (longer than two characters, not a stop word) is
    answered from the FAQ: the Matcher returns a result of confidence at
    least 0.6, above the threshold 0.3 of the handler. *)
Theorem verbatim_question_takes_faq_path
        (regexp_test_i : string -> string -> option bool) (gemini : string -> FetchResult)
        (req : Request) (qaItems : list QAItem) (intentPatterns : list IntentPattern)
        (it : QAItem) :
  In it qaItems ->
  toLowerCase (query req) = toLowerCase (question it) ->
  content_words (query req) <> [] ->
  (exists m c, findBestMatch (query req) qaItems = Some m
               /\ confidence m = Fin c /\ (6 # 10 <= c)%Q)
  /\ responseSource (route regexp_test_i gemini threshold_used
                           (findBestMatch (query req) qaItems)
                           req qaItems intentPatterns) = "qa_database".
Proof.
  intros I E W.
  (* the entry scores at least 0.6 *)
  assert (F : exists f, finalScore (query req) it = Fin f /\ (6 # 10 <= f)%Q).
  { destruct (finalScore_weighted_max (query req) it) as (l & k & Hl & _ & Hs).
    unfold questionScore in Hl. rewrite <- E in Hl.
    destruct (calculateSimilarity_self (toLowerCase (query req))) as (l' & Hl' & L1).
    { rewrite content_words_lower. exact W. }
    rewrite Hl' in Hl. injection Hl as ->.
    destruct Hs as [[Hn _] | (s & f & _ & Hf & M)].
    - exfalso. unfold semanticScore in Hn.
      destruct (calculateSemanticSimilarity_range (toLowerCase (query req))
                  (toLowerCase (question it))) as (s & Hs & _).
      { rewrite long_words_lower. apply content_words_long_words. exact W. }
      congruence.
    - exists f. split; [exact Hf|]. destruct M as (M1 & _). lra. }
  destruct F as (f & Hf & F6).
  assert (R : exists m c, findBestMatch (query req) qaItems = Some m
                          /\ confidence m = Fin c /\ (6 # 10 <= c)%Q).
  { destruct (findBestMatch_spec (query req) qaItems) as [[_ A] | (w & _ & R & G & A)];
      rewrite Forall_forall in A; specialize (A it I); rewrite Hf in A.
    - apply gt_Fin_false_iff in A. lra.
    - destruct (finalScore_cases (query req) w) as [N | (c & Hc & _)].
      + rewrite N in G. discriminate.
      + rewrite Hc in A. apply gt_Fin_false_iff in A.
        eexists. exists c. split; [exact R|]. split; [exact Hc | lra]. }
  split; [exact R|].
  destruct R as (m & c & -> & Hc & C6).
  rewrite route_faq; [reflexivity|].
  rewrite Hc. apply gt_Fin_iff. unfold threshold_used. lra.
Qed.

Lemma verbatim_question_takes_faq_path_witness :
  responseSource (route (fun _ _ => Some false) (fun _ => NetworkError) threshold_used
                        (findBestMatch "what is the WARRANTY?" [warranty_entry])
                        (mkRequest "what is the WARRANTY?" "s1" "u1" false [])
                        [warranty_entry] []) = "qa_database".
Proof.
  apply (verbatim_question_takes_faq_path (fun _ _ => Some false) (fun _ => NetworkError)
           (mkRequest "what is the WARRANTY?" "s1" "u1" false [])
           [warranty_entry] [] warranty_entry).
  - left. reflexivity.
  - reflexivity.
  - discriminate.
Defined.

(** X5.  A query without a word of more than two characters matches no
    entry: the semantic signal divides by zero, every final score is [NaN],
    and the Matcher returns no result. *)
Theorem findBestMatch_short_query (query : string) (qaItems : list QAItem) :
  long_words query = [] -> findBestMatch query qaItems = None.
Proof.
  intro H.
  destruct (findBestMatch_spec query qaItems) as [[N _] | (w & _ & _ & G & _)].
  - exact N.
  - rewrite (finalScore_no_long_word query w H) in G. discriminate.
Qed.

Lemma findBestMatch_short_query_witness :
  findBestMatch "hi ok" [warranty_entry; scooters_entry] = None.
Proof.
  apply (findBestMatch_short_query "hi ok" [warranty_entry; scooters_entry]).
  reflexivity.
Defined.

(* ================================================================== *)
(** * Edge cases of the keyword and the lexical signal *)

Section SignalEdges.

Local Abbreviation qn n := (inject_Z (Z.of_nat n)).

Lemma includes_empty (s : string) : includes s EmptyString = true.
Proof. destruct s; reflexivity. Qed.

Lemma split_ws_starts_blank (query : string) :
  starts_blank query = true ->
  exists rest, split_ws (toLowerCase query) = EmptyString :: rest.
Proof.
  destruct query as [|c r]; intro H.
  - exists []. reflexivity.
  - simpl in H. unfold split_ws. simpl. rewrite is_space_lower, H.
    eexists. reflexivity.
Qed.

Lemma keyword_hit_empty_word (keyword : string) : keyword_hit keyword EmptyString = true.
Proof. unfold keyword_hit. rewrite includes_empty, orb_true_r. reflexivity. Qed.

End SignalEdges.

(** X6.  For a query that is empty or begins with white space, the split
    gives an empty word, every keyword contains it, and the keyword signal
    of an entry with keywords is 1. *)
Theorem calculateKeywordMatch_blank_start (query : string) (keywords : list string) :
  starts_blank query = true -> keywords <> [] ->
  exists k, calculateKeywordMatch query keywords = Fin k /\ (k == 1)%Q.
Proof.
  intros B K. unfold calculateKeywordMatch.
  destruct (split_ws_starts_blank query B) as (rest & ->).
  assert (L : (0 < List.length keywords)%nat)
    by (destruct keywords; [congruence | simpl; lia]).
  destruct (List.length keywords =? 0)%nat eqn:E; [apply Nat.eqb_eq in E; lia|].
  rewrite filter_all.
  - rewrite (div_count_pos _ _ L). eexists. split; [reflexivity|].
    pose proof (qn_pos _ L) as P. field. lra.
  - intros kw _. cbn [existsb]. rewrite keyword_hit_empty_word. reflexivity.
Qed.

Lemma calculateKeywordMatch_blank_start_witness :
  exists k, calculateKeywordMatch " anything" ["warranty"; "refund"] = Fin k /\ (k == 1)%Q.
Proof.
  apply (calculateKeywordMatch_blank_start " anything" ["warranty"; "refund"]).
  - reflexivity.
  - discriminate.
Defined.

(** X7.  A query made of stop words only has the lexical signal 0 against
    every text, on either side. *)
Theorem calculateSimilarity_stop_words (query other : string) :
  all_stop_words query = true ->
  calculateSimilarity query other = Fin 0 /\ calculateSimilarity other query = Fin 0.
Proof.
  intro H.
  assert (E : content_words query = []).
  { unfold content_words. apply filter_none. intros x Hx.
    unfold all_stop_words in H. rewrite forallb_forall in H.
    unfold content_word. rewrite (H x Hx). apply andb_false_r. }
  split; apply calculateSimilarity_no_words; [left | right]; exact E.
Qed.

Lemma calculateSimilarity_stop_words_witness :
  calculateSimilarity "what is the" "What is the warranty?" = Fin 0
  /\ calculateSimilarity "What is the warranty?" "what is the" = Fin 0.
Proof.
  apply (calculateSimilarity_stop_words "what is the" "What is the warranty?").
  reflexivity.
Defined.

(* ================================================================== *)
(** * Upper and lower case *)

Section Case.

Lemma filter_map_length {A B : Type} (f : A -> B) (p : B -> bool) (l : list A) :
  List.length (filter p (map f l)) = List.length (filter (fun x => p (f x)) l).
Proof.
  induction l as [|a l IH]; simpl; [reflexivity|].
  destruct (p (f a)); simpl; rewrite IH; reflexivity.
Qed.

Lemma calculateSimilarity_lower (s1 s2 : string) :
  calculateSimilarity (toLowerCase s1) (toLowerCase s2) = calculateSimilarity s1 s2.
Proof. unfold calculateSimilarity. rewrite !content_words_lower. reflexivity. Qed.

Lemma calculateKeywordMatch_lower (query : string) (keywords : list string) :
  calculateKeywordMatch (toLowerCase query) (map toLowerCase keywords)
  = calculateKeywordMatch query keywords.
Proof.
  unfold calculateKeywordMatch.
  rewrite length_map, toLowerCase_idem, filter_map_length.
  rewrite (filter_ext
             (fun x => existsb (keyword_hit (toLowerCase x)) (split_ws (toLowerCase query)))
             (fun x => existsb (keyword_hit x) (split_ws (toLowerCase query)))).
  - reflexivity.
  - intro kw. apply existsb_pointwise. intro w.
    unfold keyword_hit. rewrite toLowerCase_idem. reflexivity.
Qed.

Lemma finalScore_lower_query (query : string) (it : QAItem) :
  finalScore (toLowerCase query) it = finalScore query it.
Proof.
  unfold finalScore, questionScore, keywordScore, semanticScore.
  rewrite toLowerCase_idem. reflexivity.
Qed.

Lemma findBestMatch_loop_lower (query : string) (qaItems : list QAItem) :
  forall bm hs,
    findBestMatch_loop (toLowerCase query) qaItems bm hs
    = findBestMatch_loop query qaItems bm hs.
Proof.
  induction qaItems as [|a l IH]; intros bm hs; simpl; [reflexivity|].
  rewrite finalScore_lower_query, !IH. reflexivity.
Qed.

End Case.

(** X8.  Matching ignores case: the final score is the same with the query,
    the question and the keywords put in lower case, and the Matcher returns
    the same result for a query and for its lower case. *)
Theorem matching_ignores_case (query : string) (it : QAItem) (qaItems : list QAItem) :
  finalScore (toLowerCase query) (lower_item it) = finalScore query it
  /\ findBestMatch (toLowerCase query) qaItems = findBestMatch query qaItems.
Proof.
  split; [|apply findBestMatch_loop_lower].
  rewrite finalScore_lower_query.
  unfold finalScore, questionScore, keywordScore, semanticScore, lower_item. cbn [question].
  rewrite !toLowerCase_idem. f_equal. f_equal.
  unfold keywords_or_empty. cbn [keywords].
  destruct (keywords it) as [ks|]; cbn [option_map]; [|reflexivity].
  rewrite <- (calculateKeywordMatch_lower (toLowerCase query) ks).
  rewrite toLowerCase_idem. reflexivity.
Qed.

(* ================================================================== *)
(** * The prompt and the answer of the fallback *)

(** X9.  The prompt holds the first ten entries only: the entries after the
    tenth do not change it. *)
Theorem prompt_first_ten (query : string) (qaItems : list QAItem)
        (hasFiles : bool) (fileTypes : list string) :
  prompt query qaItems hasFiles fileTypes
  = prompt query (firstn 10 qaItems) hasFiles fileTypes.
Proof.
  unfold prompt, faqContext.
  rewrite !firstn_map, firstn_firstn. reflexivity.
Qed.

(** X10.  The fallback never answers with the empty string, its confidence
    is 0.8 or 0.1, and with the confidence 0.1 the answer is the message of
    technical difficulties. *)
Theorem callGeminiAPI_answer (gemini : string -> FetchResult) (query : string)
        (qaItems : list QAItem) (hasFiles : bool) (fileTypes : list string) :
  let g := callGeminiAPI gemini query qaItems hasFiles fileTypes in
  g_answer g <> EmptyString
  /\ (g_confidence g = 8 # 10 \/ g_confidence g = 1 # 10)
  /\ (g_confidence g = 1 # 10 -> g_answer g = difficulties_message).
Proof.
  cbv zeta. unfold callGeminiAPI.
  destruct (gemini _) as [|status [| |[t|]]]; simpl.
  - split; [discriminate | split; [right; reflexivity | reflexivity]].
  - split; [discriminate | split; [right; reflexivity | reflexivity]].
  - split; [discriminate | split; [right; reflexivity | reflexivity]].
  - split; [|split; [left; reflexivity | discriminate]].
    destruct (String.eqb_spec t ""); [discriminate | assumption].
  - split; [discriminate | split; [left; reflexivity | discriminate]].
Qed.

Lemma callGeminiAPI_answer_witness :
  g_answer (callGeminiAPI (fun _ => Responded 200 NotJson) "hello" [] false [])
  = difficulties_message.
Proof.
  apply (callGeminiAPI_answer (fun _ => Responded 200 NotJson) "hello" [] false []).
  reflexivity.
Defined.

(* ================================================================== *)
(** * The suggestions: matched questions, then padding *)

Section SuggestionShape.

Lemma suggestion_loop_shape (queryWords : list string) (qaItems : list QAItem) :
  forall suggestions,
    (List.length suggestions <= 3)%nat ->
    suggestion_loop queryWords qaItems suggestions
    = suggestions
        ++ firstn (3 - List.length suggestions)
                  (map question (filter (shares_token queryWords) qaItems)).
Proof.
  induction qaItems as [|it rest IH]; intros s H.
  - simpl. rewrite firstn_nil, app_nil_r. reflexivity.
  - cbn [suggestion_loop filter].
    change (0 <? List.length
                   (filter (arr_includes (split_char " " (toLowerCase (question it))))
                           queryWords))%nat
      with (shares_token queryWords it).
    destruct (shares_token queryWords it); cbn [andb map].
    + destruct (List.length s <? 3)%nat eqn:L.
      * apply Nat.ltb_lt in L. rewrite IH by (rewrite length_app; simpl; lia).
        rewrite length_app. simpl List.length.
        replace (3 - List.length s)%nat with (S (3 - (List.length s + 1)))%nat by lia.
        rewrite firstn_cons, <- app_assoc. reflexivity.
      * apply Nat.ltb_ge in L. rewrite IH by exact H.
        replace (3 - List.length s)%nat with 0%nat by lia. reflexivity.
    + apply IH. exact H.
Qed.

(** The padding appends questions of the general list that the suggestions
    do not hold yet. *)
Lemma padding_loop_shape (general : list string) :
  forall suggestions,
    exists padding,
      padding_loop general suggestions = suggestions ++ padding
      /\ Forall (fun p => In p general /\ ~ In p suggestions) padding.
Proof.
  induction general as [|q rest IH]; intro s; simpl.
  - exists []. split; [rewrite app_nil_r; reflexivity | constructor].
  - destruct ((List.length s <? 3)%nat && negb (arr_includes s q)) eqn:E.
    + apply andb_true_iff in E. destruct E as [_ E]. apply negb_true_iff in E.
      destruct (IH (s ++ [q])) as (pad & -> & F).
      exists (q :: pad). split; [rewrite <- app_assoc; reflexivity|].
      constructor.
      * split; [left; reflexivity|]. intro I. apply arr_includes_In in I. congruence.
      * rewrite Forall_forall in *. intros p Hp. destruct (F p Hp) as [I N].
        split; [right; exact I|]. intro Is. apply N. apply in_or_app. left. exact Is.
    + destruct (IH s) as (pad & -> & F). exists pad. split; [reflexivity|].
      rewrite Forall_forall in *. intros p Hp. destruct (F p Hp) as [I N].
      split; [right; exact I | exact N].
Qed.

End SuggestionShape.

(** X11.  The suggestions are the questions of the first three entries that
    share a token with the query, in the order of the entries, followed by
    padding: general questions not among the matched ones, and none when
    three entries matched. *)
Theorem generateSuggestedQuestions_shape (query : string) (qaItems : list QAItem) :
  exists padding,
    generateSuggestedQuestions query qaItems = matched_questions query qaItems ++ padding
    /\ Forall (fun p => In p generalQuestions /\ ~ In p (matched_questions query qaItems))
              padding
    /\ List.length padding = (3 - List.length (matched_questions query qaItems))%nat.
Proof.
  unfold generateSuggestedQuestions.
  rewrite suggestion_loop_shape by (simpl; lia).
  cbn [app List.length]. rewrite Nat.sub_0_r.
  fold (matched_questions query qaItems).
  destruct (List.length (matched_questions query qaItems) <? 3)%nat eqn:L.
  - apply Nat.ltb_lt in L.
    pose proof (padding_loop_three (matched_questions query qaItems) L) as T.
    destruct (padding_loop_shape generalQuestions (matched_questions query qaItems))
      as (pad & E & F).
    exists pad. split; [exact E|]. split; [exact F|].
    rewrite E, length_app in T. lia.
  - apply Nat.ltb_ge in L.
    assert (T : List.length (matched_questions query qaItems) = 3%nat).
    { pose proof (firstn_le_length 3
                    (map question
                         (filter (shares_token (split_char " " (toLowerCase query)))
                                 qaItems))) as U.
      unfold matched_questions in *. lia. }
    exists []. split; [rewrite app_nil_r; reflexivity|]. split; [constructor|].
    rewrite T. reflexivity.
Qed.

(* ================================================================== *)
(** * What the handler does to the store *)

Section HandlerEffects.

Variable regexp_test_i : string -> string -> option bool.
Variable gemini : string -> FetchResult.
Variable insert_message : Message -> option string.
Variable now : Z.

Lemma update_view_count_static (i : string) (v : Z) (rows : list QARow) :
  map row_static (update_view_count now i v rows) = map row_static rows.
Proof.
  unfold update_view_count. rewrite map_map. apply map_ext.
  intro r. destruct (String.eqb (row_id r) i); reflexivity.
Qed.

Lemma update_view_count_other (i j : string) (v : Z) (rows : list QARow) :
  j <> i ->
  map row_view_count
      (filter (fun r => String.eqb (row_id r) j) (update_view_count now i v rows))
  = map row_view_count (filter (fun r => String.eqb (row_id r) j) rows).
Proof.
  intro N. induction rows as [|r rest IH]; simpl; [reflexivity|].
  destruct (String.eqb_spec (row_id r) i) as [E | E]; simpl.
  - destruct (String.eqb_spec (row_id r) j) as [E' | E']; [congruence | exact IH].
  - destruct (String.eqb (row_id r) j); simpl; rewrite IH; reflexivity.
Qed.

Lemma select_qa_items_active (st : Store) (it : QAItem) :
  In it (select_qa_items st) ->
  exists r, In r (qa_items st) /\ row_is_active r = Some true
            /\ row_id r = id it /\ row_answer r = answer it.
Proof.
  unfold select_qa_items. rewrite in_map_iff. intros (r & <- & I).
  apply filter_In in I. destruct I as [I A].
  exists r. split; [exact I|]. split; [|split; reflexivity].
  destruct (row_is_active r) as [[|]|]; simpl in A; congruence.
Qed.

Lemma callGeminiAPI_confidence (query : string) (qaItems : list QAItem)
      (hasFiles : bool) (fileTypes : list string) :
  let o := gemini (prompt query qaItems hasFiles fileTypes) in
  g_confidence (callGeminiAPI gemini query qaItems hasFiles fileTypes)
  = if call_throws o then 1 # 10 else 8 # 10.
Proof.
  cbv zeta. unfold callGeminiAPI.
  destruct (gemini _) as [|status [| |t]]; reflexivity.
Qed.

(** The two branches of the handler, with the threshold it uses, on the
    result of the Matcher. *)
Lemma route_used_cases (qaItems : list QAItem) (intentPatterns : list IntentPattern)
      (req : Request) :
  let bestMatch := findBestMatch (query req) qaItems in
  let r := route regexp_test_i gemini threshold_used bestMatch req qaItems intentPatterns in
  (exists w f,
      In w qaItems
      /\ bestMatch = Some (mkMatchResult (with_view_count w) (Fin f))
      /\ gt (Fin f) (Fin threshold_used) = true
      /\ (3 # 10 < f)%Q /\ (f <= 1)%Q
      /\ r = mkRouted (answer w) (Fin f) (Some "")
                      (findRelatedItems (with_view_count w) qaItems) "qa_database"
                      (Some (id w, (or_default (view_count (with_view_count w)) 0 + 1)%Z)))
  \/ ((forall m, bestMatch = Some m -> gt (confidence m) (Fin threshold_used) = false)
      /\ r = mkRouted
               (g_answer (callGeminiAPI gemini (query req) qaItems (hasFiles req)
                                        (fileTypes req)))
               (Fin (if call_throws
                          (gemini (prompt (query req) qaItems (hasFiles req)
                                          (fileTypes req)))
                     then 1 # 10 else 8 # 10))
               (detectIntent regexp_test_i (query req) intentPatterns) [] "ai" None).
Proof.
  cbv zeta.
  assert (F : forall bm,
             (forall m, bm = Some m -> gt (confidence m) (Fin threshold_used) = false) ->
             route regexp_test_i gemini threshold_used bm req qaItems intentPatterns
             = mkRouted
                 (g_answer (callGeminiAPI gemini (query req) qaItems (hasFiles req)
                                          (fileTypes req)))
                 (Fin (if call_throws
                            (gemini (prompt (query req) qaItems (hasFiles req)
                                            (fileTypes req)))
                       then 1 # 10 else 8 # 10))
                 (detectIntent regexp_test_i (query req) intentPatterns) [] "ai" None).
  { intros bm H. rewrite route_fallback by exact H. cbv zeta.
    rewrite callGeminiAPI_confidence. reflexivity. }
  destruct (findBestMatch_spec (query req) qaItems) as [[N _] | (w & I & R & _)].
  - right. rewrite N. split; [discriminate | apply F; discriminate].
  - rewrite R.
    destruct (gt (finalScore (query req) w) (Fin threshold_used)) eqn:G.
    + left. destruct (finalScore_cases (query req) w) as [E | (f & E & _ & F1)];
        rewrite E in *; [discriminate G|].
      exists w, f. split; [exact I|]. split; [reflexivity|]. split; [exact G|].
      split; [apply gt_Fin_iff in G; exact G|]. split; [exact F1|].
      rewrite route_faq by exact G. reflexivity.
    + right. assert (H : forall m,
                  Some (mkMatchResult (with_view_count w) (finalScore (query req) w)) = Some m ->
                  gt (confidence m) (Fin threshold_used) = false)
        by (intros m E; injection E as <-; exact G).
      split; [exact H | apply F; exact H].
Qed.

Lemma app_one_more {A : Type} (l : list A) (x : A) : l <> l ++ [x].
Proof.
  intro E. apply (f_equal (@List.length A)) in E. rewrite length_app in E. simpl in E. lia.
Qed.

End HandlerEffects.

(** X12.  A request changes neither the intent patterns nor, in the entries,
    any column other than the view counter and the time of the last update:
    no row is added, removed or reordered.  When it fails with status 500
    the three tables are as before.  When it replies, the message it sends to
    [messages] is of type "assistant", in the session of the request, with
    the response, the confidence, the suggestions and the related items of
    the reply; the message is stored, and its identifier is in the reply,
    when the insert succeeds, and nothing is stored and the reply has no
    identifier when the insert fails. *)
Theorem serve_store_effects (regexp_test_i : string -> string -> option bool)
        (gemini : string -> FetchResult) (insert_message : Message -> option string)
        (now : Z) (st : Store) (req : Request) :
  let st' := fst (serve regexp_test_i gemini insert_message now st req) in
  let answer := snd (serve regexp_test_i gemini insert_message now st req) in
  intent_patterns st' = intent_patterns st
  /\ map row_static (qa_items st') = map row_static (qa_items st)
  /\ match answer with
     | Error500 => st' = st
     | Ok200 reply =>
         exists msg,
           message_type msg = "assistant"
           /\ session_id msg = sessionId req
           /\ content msg = reply_response reply
           /\ md_confidence_score (metadata msg) = reply_confidence reply
           /\ md_suggested_questions (metadata msg) = reply_suggestedQuestions reply
           /\ md_related_qa_items (metadata msg) = reply_relatedItems reply
           /\ reply_messageId reply = insert_message msg
           /\ messages st' = match insert_message msg with
                             | Some _ => messages st ++ [msg]
                             | None => messages st
                             end
     end.
Proof.
  cbv zeta. unfold serve.
  destruct (matchedIntent _) as [i|]; cbn [fst snd].
  - cbn [intent_patterns qa_items messages].
    split; [reflexivity|]. split.
    + destruct (viewUpdate _) as [[j v]|]; [apply update_view_count_static | reflexivity].
    + eexists. repeat split; reflexivity.
  - repeat split.
Qed.

(** X13.  The view counters the handler does not own stay as they are: on
    the fallback path the entries are unchanged, and on the FAQ path the
    counters of the rows with another identifier than the matched one are
    unchanged. *)
Theorem serve_view_counts_confined (regexp_test_i : string -> string -> option bool)
        (gemini : string -> FetchResult) (insert_message : Message -> option string)
        (now : Z) (st : Store) (req : Request) :
  let st' := fst (serve regexp_test_i gemini insert_message now st req) in
  let bestMatch := findBestMatch (query req) (select_qa_items st) in
  ((forall m, bestMatch = Some m -> gt (confidence m) (Fin threshold_used) = false) ->
   qa_items st' = qa_items st)
  /\ (forall m j, bestMatch = Some m -> j <> id (item m) ->
                  view_counts j st' = view_counts j st).
Proof.
  cbv zeta. split.
  - intro H. unfold serve. rewrite route_fallback by exact H. cbv zeta.
    cbn [matchedIntent viewUpdate]. destruct (detectIntent _ _ _); reflexivity.
  - intros m j B N. unfold serve, view_counts. rewrite B. unfold route.
    destruct (gt (confidence m) (Fin threshold_used)); cbn [matchedIntent viewUpdate].
    + cbn [fst qa_items]. apply update_view_count_other. exact N.
    + destruct (detectIntent _ _ _); reflexivity.
Qed.

Lemma serve_view_counts_confined_witness :
  view_counts "e6"
    (fst (serve (fun _ _ => Some false) (fun _ => NetworkError) (fun _ => Some "m1") 200
                (mkStore [return_row; warranty_row] [] []) sample_request))
  = view_counts "e6" (mkStore [return_row; warranty_row] [] []).
Proof.
  refine (proj2 (serve_view_counts_confined (fun _ _ => Some false) (fun _ => NetworkError)
                   (fun _ => Some "m1") 200
                   (mkStore [return_row; warranty_row] [] []) sample_request)
                _ "e6" eq_refl _).
  discriminate.
Defined.

(** X14.  An answer from the FAQ is the answer of an active row of the
    store, the row of the matched entry: a row that is not active never
    answers. *)
Theorem serve_faq_answer_active (regexp_test_i : string -> string -> option bool)
        (gemini : string -> FetchResult) (insert_message : Message -> option string)
        (now : Z) (st : Store) (req : Request) (m : MatchResult) :
  findBestMatch (query req) (select_qa_items st) = Some m ->
  gt (confidence m) (Fin threshold_used) = true ->
  exists r reply,
    In r (qa_items st)
    /\ row_is_active r = Some true
    /\ row_id r = id (item m)
    /\ snd (serve regexp_test_i gemini insert_message now st req) = Ok200 reply
    /\ reply_response reply = row_answer r.
Proof.
  intros B G.
  destruct (findBestMatch_spec (query req) (select_qa_items st))
    as [[N _] | (w & I & R & _)]; [congruence|].
  rewrite R in B. injection B as <-.
  destruct (select_qa_items_active st w I) as (r & Ir & A & Ei & Ea).
  exists r. unfold serve. rewrite R. rewrite route_faq by exact G.
  cbn [matchedIntent snd]. eexists.
  split; [exact Ir|]. split; [exact A|]. split; [exact Ei|].
  split; [reflexivity|]. cbn [reply_response response item answer with_view_count].
  symmetry. exact Ea.
Qed.

Lemma serve_faq_answer_active_witness :
  exists r reply,
    In r (qa_items sample_store)
    /\ row_is_active r = Some true
    /\ row_id r = "e5"
    /\ snd (serve (fun _ _ => Some false) (fun _ => NetworkError) (fun _ => Some "m1") 200
                  sample_store sample_request) = Ok200 reply
    /\ reply_response reply = row_answer r.
Proof.
  apply (serve_faq_answer_active (fun _ _ => Some false) (fun _ => NetworkError)
           (fun _ => Some "m1") 200 sample_store sample_request
           (mkMatchResult
              (mkQAItem "e5" "What is the return policy?" "Within 30 days."
                        (Some ["return"; "refund"]) (Some "c1") (Some 0%Z))
              (Fin (16 # 20)))).
  - reflexivity.
  - reflexivity.
Defined.

(* ================================================================== *)
(** * The confidence of a reply and its badge *)

Section ReplyConfidence.

(** X15.  The semantic signal of a candidate is [NaN] exactly when the query
    has no word of more than two characters. *)
Theorem semanticScore_NaN_exactly (query : string) (it : QAItem) :
  semanticScore query it = NaN <-> long_words query = [].
Proof.
  split; intro H.
  - destruct (long_words query) as [|w ws] eqn:E; [reflexivity|]. exfalso.
    destruct (calculateSemanticSimilarity_range (toLowerCase query)
                (toLowerCase (question it))) as (v & Hv & _).
    + rewrite long_words_lower, E. discriminate.
    + unfold semanticScore in H. congruence.
  - pose proof (finalScore_no_long_word query it H) as F.
    unfold finalScore, max3, questionScore, keywordScore in F.
    destruct (calculateSimilarity_range (toLowerCase query) (toLowerCase (question it)))
      as (l & Hl & _).
    destruct (calculateKeywordMatch_range (toLowerCase query) (keywords_or_empty it))
      as (k & Hk & _).
    rewrite Hl, Hk in F.
    destruct (semanticScore query it); [discriminate F | discriminate F | reflexivity].
Qed.

End ReplyConfidence.

(** X16.  Whenever the handler replies (status 200), the confidence of the
    reply is a rational between 0.1 and 1: above 0.3 when the answer comes
    from the FAQ, 0.8 or 0.1 when it comes from the fallback; it is never 0
    or [NaN]. *)
Theorem serve_reply_confidence (regexp_test_i : string -> string -> option bool)
        (gemini : string -> FetchResult) (insert_message : Message -> option string)
        (now : Z) (st : Store) (req : Request) (reply : Reply) :
  snd (serve regexp_test_i gemini insert_message now st req) = Ok200 reply ->
  exists c, reply_confidence reply = Fin c /\ (1 # 10 <= c)%Q /\ (c <= 1)%Q.
Proof.
  unfold serve.
  destruct (route_used_cases regexp_test_i gemini (select_qa_items st)
              (select_intent_patterns st) req)
    as [(w & f & _ & _ & _ & F3 & F1 & ->) | (_ & ->)]; cbn [matchedIntent].
  - cbn [snd]. intro E. injection E as <-. cbn [reply_confidence routed_confidence].
    exists f. split; [reflexivity | split; lra].
  - destruct (detectIntent _ _ _); cbn [snd]; intro E; [|discriminate E].
    injection E as <-. cbn [reply_confidence routed_confidence].
    destruct (call_throws _); eexists; (split; [reflexivity | split; lra]).
Qed.

Lemma serve_reply_confidence_witness :
  exists c, Fin (16 # 20) = Fin c /\ (1 # 10 <= c)%Q /\ (c <= 1)%Q.
Proof.
  apply (serve_reply_confidence (fun _ _ => Some false) (fun _ => NetworkError)
           (fun _ => Some "m1") 200 sample_store sample_request
           (mkReply "Within 30 days." (Fin (16 # 20))
                    ["What is the return policy?"; "How do I track my order?";
                     "What is the warranty policy?"] [] (Some "m1"))).
  reflexivity.
Defined.

(** X17.  The badge of a message the handler stored, as the chat page draws
    it from the row: there is one; it reads "From FAQ" exactly when the
    answer came from the FAQ; when it came from the fallback it reads "Low
    Confidence" with the variant "destructive" if the call raised and "High
    Confidence" with the variant "default" if it did not; it never reads
    "Medium Confidence". *)
Theorem stored_reply_badge (regexp_test_i : string -> string -> option bool)
        (gemini : string -> FetchResult) (insert_message : Message -> option string)
        (now : Z) (st : Store) (req : Request) (msg : Message) :
  messages (fst (serve regexp_test_i gemini insert_message now st req))
  = messages st ++ [msg] ->
  let bestMatch := findBestMatch (query req) (select_qa_items st) in
  let o := gemini (prompt (query req) (select_qa_items st) (hasFiles req) (fileTypes req)) in
  exists variant label,
    badge (fromStored msg) = Some (variant, label)
    /\ (label = "From FAQ"
        <-> exists m, bestMatch = Some m /\ gt (confidence m) (Fin threshold_used) = true)
    /\ label <> "Medium Confidence"
    /\ ((forall m, bestMatch = Some m -> gt (confidence m) (Fin threshold_used) = false) ->
        (call_throws o = true -> label = "Low Confidence" /\ variant = "destructive")
        /\ (call_throws o = false -> label = "High Confidence" /\ variant = "default")).
Proof.
  cbv zeta. unfold serve.
  destruct (route_used_cases regexp_test_i gemini (select_qa_items st)
              (select_intent_patterns st) req)
    as [(w & f & _ & B & G & F3 & F1 & ->) | (H & ->)]; cbn [matchedIntent].
  - cbn [fst messages response routed_confidence relatedItems responseSource].
    destruct (insert_message _); intro E.
    + apply app_inv_head in E. injection E as <-.
      unfold badge, fromStored.
      cbn [content message_type session_id metadata md_confidence_score
           md_response_source chat_type chat_confidence_score chat_response_source
           from_json_number truthy].
      assert (T : Qeq_bool f 0 = false).
      { destruct (Qeq_bool f 0) eqn:Q; [|reflexivity].
        apply Qeq_bool_iff in Q. lra. }
      rewrite T. cbn [negb andb String.eqb Ascii.eqb Bool.eqb].
      eexists. eexists. split; [reflexivity|].
      split; [split; [intros _; eexists; split; [exact B | exact G] | reflexivity]|].
      split; [discriminate|].
      intro H. rewrite B in H. specialize (H _ eq_refl). cbn [confidence] in H. congruence.
    + exfalso. exact (app_one_more _ _ E).
  - destruct (detectIntent _ _ _) as [i|]; cbn [fst messages];
      [|intro E; exfalso; exact (app_one_more _ _ E)].
    cbn [response routed_confidence relatedItems responseSource].
    destruct (insert_message _); intro E; [|exfalso; exact (app_one_more _ _ E)].
    apply app_inv_head in E. injection E as <-.
    destruct (call_throws _);
      (eexists; eexists; split; [reflexivity|];
       split; [split; [discriminate | intros (m & Em & Gm); rewrite (H m Em) in Gm;
                                       discriminate Gm]|];
       split; [discriminate|];
       intros _; split; intro C; [|]; first [discriminate C | split; reflexivity]).
Qed.

Lemma stored_reply_badge_witness :
  exists variant label,
    badge (fromStored
             (mkMessage "s1" "assistant" "Within 30 days."
                (mkMetadata "What is your return policy?"
                   ["What is the return policy?"; "How do I track my order?";
                    "What is the warranty policy?"]
                   (Fin (16 # 20)) "" [] "qa_database")))
    = Some (variant, label)
    /\ (label = "From FAQ"
        <-> exists m, findBestMatch "What is your return policy?"
                                    (select_qa_items sample_store) = Some m
                      /\ gt (confidence m) (Fin threshold_used) = true)
    /\ label <> "Medium Confidence"
    /\ ((forall m, findBestMatch "What is your return policy?"
                                 (select_qa_items sample_store) = Some m ->
                   gt (confidence m) (Fin threshold_used) = false) ->
        (call_throws NetworkError = true ->
         label = "Low Confidence" /\ variant = "destructive")
        /\ (call_throws NetworkError = false ->
            label = "High Confidence" /\ variant = "default")).
Proof.
  apply (stored_reply_badge (fun _ _ => Some false) (fun _ => NetworkError)
           (fun _ => Some "m1") 200 sample_store sample_request).
  reflexivity.
Defined.

(** X18.  On the fallback path the matched intent, when one is assigned, is
    "general_inquiry" or the intent of an active pattern of the store that
    matches the query; when none is assigned, an active pattern of the store
    is not a regular expression.  A pattern that is not active is never
    tried. *)
Theorem serve_intent_from_active_pattern (regexp_test_i : string -> string -> option bool)
        (gemini : string -> FetchResult) (st : Store) (req : Request)
        (bestMatch : option MatchResult) :
  (forall m, bestMatch = Some m -> gt (confidence m) (Fin threshold_used) = false) ->
  let r := route regexp_test_i gemini threshold_used bestMatch req
                 (select_qa_items st) (select_intent_patterns st) in
  match matchedIntent r with
  | Some i =>
      i = "general_inquiry"
      \/ exists row, In row (intent_patterns st)
                     /\ row_pattern_is_active row = Some true
                     /\ regexp_test_i (pattern (row_pattern row)) (query req) = Some true
                     /\ i = intent (row_pattern row)
  | None =>
      exists row, In row (intent_patterns st)
                  /\ row_pattern_is_active row = Some true
                  /\ regexp_test_i (pattern (row_pattern row)) (query req) = None
  end.
Proof.
  intro H. cbv zeta. rewrite route_fallback by exact H. cbv zeta. cbn [matchedIntent].
  assert (A : forall p, In p (select_intent_patterns st) ->
                exists row, In row (intent_patterns st)
                            /\ row_pattern_is_active row = Some true
                            /\ row_pattern row = p).
  { intros p I. unfold select_intent_patterns in I. apply in_map_iff in I.
    destruct I as (row & E & I). apply filter_In in I. destruct I as [I T].
    exists row. split; [exact I|]. split; [|exact E].
    destruct (row_pattern_is_active row) as [[|]|]; simpl in T; congruence. }
  destruct (detectIntent_cases regexp_test_i (query req) (select_intent_patterns st))
    as [(tried & p & rest & E & _ & T & ->) | [[_ ->] | (tried & p & rest & E & _ & T & ->)]].
  - right. destruct (A p) as (row & I & Act & <-).
    { rewrite E. apply in_or_app. right. left. reflexivity. }
    exists row. repeat split; assumption.
  - left. reflexivity.
  - destruct (A p) as (row & I & Act & <-).
    { rewrite E. apply in_or_app. right. left. reflexivity. }
    exists row. repeat split; assumption.
Qed.

Lemma serve_intent_from_active_pattern_witness :
  "order_status" = "general_inquiry"
  \/ exists row, In row (intent_patterns refund_order_store)
                 /\ row_pattern_is_active row = Some true
                 /\ sample_regexp (pattern (row_pattern row)) "refund for my order" = Some true
                 /\ "order_status" = intent (row_pattern row).
Proof.
  apply (serve_intent_from_active_pattern sample_regexp (fun _ => NetworkError)
           refund_order_store (mkRequest "refund for my order" "s1" "u1" false []) None).
  discriminate.
Defined.

(** X19.  The level of the badge grows with the confidence: a confidence
    that is not lower never gives a lower level; and [NaN] gives the level
    low. *)
Theorem getConfidenceLevel_monotone (a b : Q) :
  (a <= b)%Q ->
  (level_rank (getConfidenceLevel (Fin a)) <= level_rank (getConfidenceLevel (Fin b)))%nat
  /\ getConfidenceLevel NaN = low.
Proof.
  intro H. split; [|reflexivity].
  unfold getConfidenceLevel, num_ge.
  destruct (Qle_bool (8 # 10) a) eqn:A8; destruct (Qle_bool (8 # 10) b) eqn:B8;
    destruct (Qle_bool (6 # 10) a) eqn:A6; destruct (Qle_bool (6 # 10) b) eqn:B6;
    simpl; try lia; exfalso;
    repeat match goal with
           | E : Qle_bool _ _ = true |- _ => apply Qle_bool_iff in E
           | E : Qle_bool ?x ?y = false |- _ =>
               assert (~ (x <= y)%Q) by (rewrite <- Qle_bool_iff; congruence); clear E
           end; lra.
Qed.

Lemma getConfidenceLevel_monotone_witness :
  (level_rank (getConfidenceLevel (Fin (1 # 10)))
   <= level_rank (getConfidenceLevel (Fin (8 # 10))))%nat
  /\ getConfidenceLevel NaN = low.
Proof.
  apply (getConfidenceLevel_monotone (1 # 10) (8 # 10)).
  discriminate.
Defined.

(** X20.  The Matcher returns a result exactly when an entry of the set has
    a final score above 0, and the result is then an entry with a positive
    final score that no entry exceeds.  For a query with a word of more than
    two characters the three signals of every candidate are numbers and its
    final score is the greatest of the lexical signal times 0.6, the keyword
    signal times 0.8 and the semantic signal times 1. *)
Theorem findBestMatch_returns_highest (query : string) (qaItems : list QAItem) :
  ((exists it, In it qaItems /\ gt (finalScore query it) (Fin 0) = true)
   <-> exists m, findBestMatch query qaItems = Some m)
  /\ (forall m, findBestMatch query qaItems = Some m ->
        exists w, In w qaItems
                  /\ m = mkMatchResult (with_view_count w) (finalScore query w)
                  /\ gt (finalScore query w) (Fin 0) = true
                  /\ forall it, In it qaItems ->
                                gt (finalScore query it) (finalScore query w) = false)
  /\ (long_words query <> [] ->
      forall it,
        exists l k s f,
          questionScore query it = Fin l
          /\ keywordScore query it = Fin k
          /\ semanticScore query it = Fin s
          /\ finalScore query it = Fin f
          /\ is_max3 f (l * (6 # 10)) (k * (8 # 10)) (s * 1)).
Proof.
  split; [|split].
  - split.
    + intros (it & I & G).
      destruct (findBestMatch_spec query qaItems) as [[_ F] | (w & _ & R & _)].
      * rewrite Forall_forall in F. rewrite (F it I) in G. discriminate.
      * eexists. exact R.
    + intros (m & H).
      destruct (findBestMatch_spec query qaItems) as [[N _] | (w & I & _ & G & _)].
      * congruence.
      * exists w. split; assumption.
  - intros m H.
    destruct (findBestMatch_spec query qaItems) as [[N _] | (w & I & R & G & F)].
    + congruence.
    + rewrite R in H. injection H as <-. exists w.
      split; [exact I|]. split; [reflexivity|]. split; [exact G|].
      rewrite Forall_forall in F. exact F.
  - intros L it.
    destruct (finalScore_weighted_max query it) as (l & k & Hl & Hk & Hs).
    exists l, k.
    destruct Hs as [[Hn _] | (s & f & Hs & Hf & M)].
    + exfalso. unfold semanticScore in Hn.
      destruct (calculateSemanticSimilarity_range (toLowerCase query)
                  (toLowerCase (question it))) as (v & Hv & _).
      * rewrite long_words_lower. exact L.
      * congruence.
    + exists s, f. repeat split; try assumption; apply M.
Qed.

Lemma findBestMatch_returns_highest_witness :
  exists w, In w [track_entry "e3"; warranty_entry]
            /\ mkMatchResult (with_view_count (track_entry "e3")) (Fin (1 # 1))
               = mkMatchResult (with_view_count w) (finalScore "track" w)
            /\ gt (finalScore "track" w) (Fin 0) = true
            /\ forall it, In it [track_entry "e3"; warranty_entry] ->
                          gt (finalScore "track" it) (finalScore "track" w) = false.
Proof.
  apply (proj1 (proj2 (findBestMatch_returns_highest "track"
                         [track_entry "e3"; warranty_entry]))).
  reflexivity.
Defined.

(** X21.  The badge of the message the page builds from a reply, which has
    no source: there is one, it never reads "From FAQ", and it reads "High
    Confidence" for a confidence of at least 0.8, "Medium Confidence" from
    0.6 on and "Low Confidence" below, also for an answer from the FAQ. *)
Theorem local_reply_badge (regexp_test_i : string -> string -> option bool)
        (gemini : string -> FetchResult) (insert_message : Message -> option string)
        (now : Z) (st : Store) (req : Request) (reply : Reply) :
  snd (serve regexp_test_i gemini insert_message now st req) = Ok200 reply ->
  exists c variant label,
    reply_confidence reply = Fin c
    /\ badge (fromReply (sessionId req) reply) = Some (variant, label)
    /\ label <> "From FAQ"
    /\ ((8 # 10 <= c)%Q -> label = "High Confidence")
    /\ ((6 # 10 <= c)%Q -> (c < 8 # 10)%Q -> label = "Medium Confidence")
    /\ ((c < 6 # 10)%Q -> label = "Low Confidence").
Proof.
  intro H.
  assert (C : exists c, reply_confidence reply = Fin c /\ (1 # 10 <= c)%Q).
  { revert H. unfold serve.
    destruct (route_used_cases regexp_test_i gemini (select_qa_items st)
                (select_intent_patterns st) req)
      as [(w & f & _ & _ & _ & F3 & _ & ->) | (_ & ->)]; cbn [matchedIntent].
    - cbn [snd]. intro E. injection E as <-. exists f. split; [reflexivity | lra].
    - destruct (detectIntent _ _ _); cbn [snd]; intro E; [|discriminate E].
      injection E as <-. cbn [reply_confidence routed_confidence].
      destruct (call_throws _); eexists; (split; [reflexivity | lra]). }
  destruct C as (c & Hc & C1).
  exists c. unfold badge, fromReply.
  cbn [chat_type chat_confidence_score chat_response_source]. rewrite Hc.
  cbn [from_json_number truthy].
  assert (T : Qeq_bool c 0 = false).
  { destruct (Qeq_bool c 0) eqn:Q; [|reflexivity]. apply Qeq_bool_iff in Q. lra. }
  rewrite T. cbn [negb andb String.eqb Ascii.eqb Bool.eqb].
  eexists. eexists. split; [reflexivity|]. split; [reflexivity|].
  unfold getLabel, getConfidenceLevel, num_ge.
  destruct (Qle_bool (8 # 10) c) eqn:A8; [|destruct (Qle_bool (6 # 10) c) eqn:A6];
    repeat match goal with
           | E : Qle_bool _ _ = true |- _ => apply Qle_bool_iff in E
           | E : Qle_bool ?x ?y = false |- _ =>
               assert (~ (x <= y)%Q) by (rewrite <- Qle_bool_iff; congruence); clear E
           end;
    (split; [discriminate|]); repeat split; intros; first [reflexivity | exfalso; lra].
Qed.

Lemma local_reply_badge_witness :
  exists c variant label,
    Fin (16 # 20) = Fin c
    /\ badge (fromReply "s1"
                (mkReply "Within 30 days." (Fin (16 # 20))
                         ["What is the return policy?"; "How do I track my order?";
                          "What is the warranty policy?"] [] (Some "m1")))
       = Some (variant, label)
    /\ label <> "From FAQ"
    /\ ((8 # 10 <= c)%Q -> label = "High Confidence")
    /\ ((6 # 10 <= c)%Q -> (c < 8 # 10)%Q -> label = "Medium Confidence")
    /\ ((c < 6 # 10)%Q -> label = "Low Confidence").
Proof.
  apply (local_reply_badge (fun _ _ => Some false) (fun _ => NetworkError)
           (fun _ => Some "m1") 200 sample_store sample_request
           (mkReply "Within 30 days." (Fin (16 # 20))
                    ["What is the return policy?"; "How do I track my order?";
                     "What is the warranty policy?"] [] (Some "m1"))).
  reflexivity.
Defined.


